(** * onediff: compiled-graph caching and dispatch

    A shallow embedding of three source files of the repository,

    - [onediff_sd_webui_extensions/scripts/onediff.py]   (module [Webui]),
    - [src/onediff/infer_compiler/__init__.py]            (module [Bridge]),
    - [src/onediff/infer_compiler/oneflow/deployable_module.py]
                                                          (module [Deployable]),

    together with the properties of the specification that concern them.

    Python objects that are mutated in place are modelled by explicit state
    passing; an exception is a [Raise] result that leaves the state reached
    so far in place, as in Python. *)

From Stdlib Require Import ZArith QArith String Ascii List Bool Lia.
From stdpp Require Import base option list gmap strings.

Local Open Scope string_scope.
Local Open Scope Z_scope.

(* ===================================================================== *)
(** * Python runtime layer *)
(* ===================================================================== *)

Module Py.

(** Exceptions that the modelled code raises itself, or that the
    builtins it calls raise. [HostError] stands for whatever an external
    collaborator raises. *)
Inductive exn : Type :=
| NameError (name : string)
| UnboundLocalError (name : string)
| IndexError
| ValueError (what : string)
| TypeError (what : string)
| AssertionError (what : string)
| StopIteration
| RuntimeError (msg : string)
| HostError (tag : string).

Inductive result (A : Type) : Type :=
| Ok (a : A)
| Raise (e : exn).
Arguments Ok {A} a.
Arguments Raise {A} e.

Definition is_ok {A} (r : result A) : bool :=
  match r with Ok _ => true | Raise _ => false end.

#[global] Instance result_ret : MRet result := @Ok.
#[global] Instance result_bind : MBind result :=
  fun A B f r => match r with Ok a => f a | Raise e => Raise e end.

(** [items[i]] on a Python list. *)
Definition index {A} (l : list A) (i : nat) : result A :=
  match l !! i with Some a => Ok a | None => Raise IndexError end.

(** A list comprehension [[f(x) for x in l]] whose element expression may
    raise: elements are evaluated left to right, the first exception
    wins. *)
Fixpoint comprehension {A B} (f : A -> result B) (l : list A) : result (list B) :=
  match l with
  | [] => Ok []
  | x :: rest =>
      match f x with
      | Raise e => Raise e
      | Ok y => match comprehension f rest with
                | Raise e => Raise e
                | Ok ys => Ok (y :: ys)
                end
      end
  end.

(** ** Stateful code: a state-and-exception monad *)

Definition eff (St A : Type) : Type := St -> result A * St.

Definition ret {St A} (a : A) : eff St A := fun s => (Ok a, s).
Definition bind {St A B} (m : eff St A) (k : A -> eff St B) : eff St B :=
  fun s => match m s with
           | (Ok a, s') => k a s'
           | (Raise e, s') => (Raise e, s')
           end.
Definition raise {St A} (e : exn) : eff St A := fun s => (Raise e, s).
Definition gets {St A} (f : St -> A) : eff St A := fun s => (Ok (f s), s).
Definition modify {St} (f : St -> St) : eff St unit := fun s => (Ok tt, f s).

Declare Scope eff_scope.
Delimit Scope eff_scope with eff.
Bind Scope eff_scope with eff.
Notation "'do' x <- m ; k" := (bind m (fun x => k))
  (at level 10, x name, m at level 100, k at level 200) : eff_scope.
Notation "'exec' m ; k" := (bind m (fun _ => k))
  (at level 10, m at level 100, k at level 200) : eff_scope.

(** ** Context managers and the [with] statement

    [cm_enter] is the construction of the manager followed by
    [__enter__]; it returns the manager's own attributes. [cm_exit] is
    [__exit__], called with the exception in flight (if any); its boolean
    result is the truth value of what [__exit__] returns. *)
Record ctx_manager (St : Type) : Type := {
  cm_self : Type;
  cm_enter : eff St cm_self;
  cm_exit : cm_self -> option exn -> eff St bool;
}.
Arguments cm_self {St} _.
Arguments cm_enter {St} _.
Arguments cm_exit {St} _.

(** [with cm: body]. The body's value is the binding state of the local
    variables it assigns: [Some a] once the assignment has run, [None]
    when the body was cut short by an exception that [__exit__] then
    suppressed. *)
Definition with_ {St A} (cm : ctx_manager St) (body : eff St (option A))
  : eff St (option A) :=
  fun s =>
    match cm_enter cm s with
    | (Raise e, s1) => (Raise e, s1)
    | (Ok self, s1) =>
        match body s1 with
        | (Ok a, s2) =>
            match cm_exit cm self None s2 with
            | (Ok _, s3) => (Ok a, s3)
            | (Raise e', s3) => (Raise e', s3)
            end
        | (Raise e, s2) =>
            match cm_exit cm self (Some e) s2 with
            | (Ok true, s3) => (Ok None, s3)
            | (Ok false, s3) => (Raise e, s3)
            | (Raise e', s3) => (Raise e', s3)
            end
        end
    end.

(** ** [str] methods *)

(** Whitespace as [str.strip()] and [str.isspace()] see it, on ASCII
    text: TAB, LF, VT, FF, CR, FS, GS, RS, US and the space. *)
Definition is_space (c : ascii) : bool :=
  let n := nat_of_ascii c in
  ((9 <=? n)%nat && (n <=? 13)%nat) || ((28 <=? n)%nat && (n <=? 32)%nat).

Fixpoint lstrip (s : string) : string :=
  match s with
  | EmptyString => EmptyString
  | String c rest => if is_space c then lstrip rest else s
  end.

Fixpoint rstrip (s : string) : string :=
  match s with
  | EmptyString => EmptyString
  | String c rest =>
      match rstrip rest with
      | EmptyString => if is_space c then EmptyString else String c EmptyString
      | kept => String c kept
      end
  end.

(** [s.strip()] *)
Definition strip (s : string) : string := rstrip (lstrip s).

(** [s.split(sep)] for a one-character separator: every occurrence
    splits, so adjacent separators give empty items and the result is
    never empty. *)
Fixpoint split (sep : ascii) (s : string) : list string :=
  match s with
  | EmptyString => [EmptyString]
  | String c rest =>
      if Ascii.eqb c sep then EmptyString :: split sep rest
      else match split sep rest with
           | [] => [String c EmptyString]
           | item :: items => String c item :: items
           end
  end.

Definition LF : ascii := ascii_of_nat 10.

(** Every character of [s] satisfies [p]. *)
Fixpoint all_chars (p : ascii -> bool) (s : string) : bool :=
  match s with
  | EmptyString => true
  | String c rest => p c && all_chars p rest
  end.

(** [f.readlines()] on the decoded text of a file: lines keep their
    terminating newline; a final line without one is kept as it is. *)
Fixpoint readlines (text : string) : list string :=
  match text with
  | EmptyString => []
  | String c rest =>
      if Ascii.eqb c LF then String c EmptyString :: readlines rest
      else match readlines rest with
           | [] => [String c EmptyString]
           | line :: lines => String c line :: lines
           end
  end.

(** ** [int(str)] in base 10 *)

Definition digit (c : ascii) : option Z :=
  let n := nat_of_ascii c in
  if (48 <=? n)%nat && (n <=? 57)%nat then Some (Z.of_nat n - 48) else None.

(** Digits with single underscores allowed between them. [after_digit]
    tells whether the previous character was a digit. *)
Fixpoint digits (acc : Z) (after_digit : bool) (s : string) : option Z :=
  match s with
  | EmptyString => if after_digit then Some acc else None
  | String c rest =>
      match digit c with
      | Some d => digits (10 * acc + d) true rest
      | None =>
          if Ascii.eqb c "_"%char && after_digit then digits acc false rest
          else None
      end
  end.

Definition int (s : string) : result Z :=
  let body :=
    match strip s with
    | String "+" rest => digits 0 false rest
    | String "-" rest => Z.opp <$> digits 0 false rest
    | t => digits 0 false t
    end in
  match body with
  | Some z => Ok z
  | None => Raise (ValueError "invalid literal for int() with base 10")
  end.

End Py.
Export Py.

(* ===================================================================== *)
(** * scripts/onediff.py: the web-UI script *)
(* ===================================================================== *)

Module Webui.

(** ** Collaborators

    What the script imports from outside these sources: the [float]
    builtin (whose rounding to binary64 is not modelled: its result type
    is left abstract), [parse_boolean_from_env], the host's
    [process_images], and the three context managers that [run] enters
    after [UnetCompileCtx]. The host collaborators act on the host's
    state [World], not on the script's own globals. *)

(** The classes [isinstance] tests in [compile_unet]. *)
Inductive klass : Type :=
| UNetModelLDM
| UNetModelSGM
| OtherClass (name : string).

#[global] Instance klass_eq_dec : EqDecision klass.
Proof. solve_decision. Defined.

Section WithFloat.
Context {float_t : Type}.

(** One value of the [calibrate_info] dict: [[scale, zero_point, [..]]]. *)
Definition calibrate_entry : Type := float_t * Z * list float_t.

(** Module objects. The compilers and the quantizer are external; what
    they return is represented by the call that produced it. [PyNone]
    is Python's [None], which the global [compiled_unet] holds at
    import time. *)
Inductive module : Type :=
| PyNone
| Eager (cls : klass) (name : string)
| compile_ldm_unet (unet_model : module) (use_graph : bool)
| compile_sgm_unet (unet_model : module) (use_graph : bool)
| quantize_model (model : module) (inplace : bool)
    (calibrate_info : option (gmap string calibrate_entry)).

(** The class [isinstance] sees. *)
Definition class_of (m : module) : klass :=
  match m with
  | Eager cls _ => cls
  | PyNone => OtherClass "NoneType"
  | compile_ldm_unet _ _ | compile_sgm_unet _ _ => OtherClass "DeployableModule"
  | quantize_model _ _ _ => OtherClass "QuantizedModule"
  end.

(** [shared.sd_model]: the four family attributes, each of which may
    be missing on the object, and [.model.diffusion_model]. *)
Record SdModel : Type := {
  is_sdxl : option bool;
  is_sd2 : option bool;
  is_sd1 : option bool;
  is_ssd : option bool;
  diffusion_model : module;
}.

(** A [pathlib.Path] by the components the script uses. *)
Record Path : Type := {
  parent : string;
  stem : string;
  suffix : string;
}.

(** The host's state: [shared.opts.sd_model_checkpoint],
    [shared.sd_model], [select_checkpoint().filename], the text files
    on disk keyed by directory and file name, and [os.environ]. *)
Record World : Type := {
  sd_model_checkpoint : string;
  sd_model : SdModel;
  checkpoint_filename : Path;
  files : gmap (string * string) string;
  environ : gmap string string;
}.

(** A model-type signature: the dict built by [get_model_type], in
    insertion order. *)
Definition model_type : Type := list (string * bool).

Inductive event : Type :=
| InfoGotCalibrate (dir file : string)
| InfoSkipCompile (checkpoint : string) (current_type : option model_type)
| WarnUnsupportedModelType (cls : klass)
| WarnReuseNeedsEnv
| TorchGc
| CallCompileUnet (unet_model : module) (quantization : bool).

(** The global [compiled_unet] is either bound to a value or, after
    [del], not bound at all. *)
Inductive binding : Type :=
| Unbound
| Bound (v : module).

(** The script's own state (its two module-level globals and the
    [current_type] attribute of the [Script] object), the messages it
    has issued, and the host. *)
Record State : Type := {
  compiled_unet : binding;
  compiled_ckpt_name : option string;
  current_type : option model_type;
  log : list event;
  world : World;
}.

End WithFloat.
Arguments module : clear implicits.
Arguments SdModel : clear implicits.
Arguments World : clear implicits.
Arguments State : clear implicits.
Arguments event : clear implicits.
Arguments binding : clear implicits.
Arguments calibrate_entry : clear implicits.

Class Host : Type := {
  float_t : Type;
  float : string -> result float_t;
  parse_boolean_from_env : gmap string string -> string -> string -> bool;
  params : Type;
  Processed : Type;
  process_images : params -> eff (World float_t) Processed;
  VaeCompileCtx : ctx_manager (World float_t);
  SD21CompileCtx : ctx_manager (World float_t);
  HijackLoraActivate : ctx_manager (World float_t);
}.

Section Script.
Context `{Host}.

Abbreviation module := (module float_t).
Abbreviation State := (State float_t).
Abbreviation World := (World float_t).
Abbreviation calibrate_info_t := (gmap string (calibrate_entry float_t)).

(** *** Field updates (attribute assignment) *)

Definition set_compiled_unet (b : binding float_t) (s : State) : State :=
  {| compiled_unet := b; compiled_ckpt_name := compiled_ckpt_name s;
     current_type := current_type s; log := log s; world := world s |}.
Definition set_compiled_ckpt_name (n : option string) (s : State) : State :=
  {| compiled_unet := compiled_unet s; compiled_ckpt_name := n;
     current_type := current_type s; log := log s; world := world s |}.
Definition set_current_type (t : option model_type) (s : State) : State :=
  {| compiled_unet := compiled_unet s; compiled_ckpt_name := compiled_ckpt_name s;
     current_type := t; log := log s; world := world s |}.
Definition emit (e : event float_t) (s : State) : State :=
  {| compiled_unet := compiled_unet s; compiled_ckpt_name := compiled_ckpt_name s;
     current_type := current_type s; log := log s ++ [e]; world := world s |}.
Definition set_world (w : World) (s : State) : State :=
  {| compiled_unet := compiled_unet s; compiled_ckpt_name := compiled_ckpt_name s;
     current_type := current_type s; log := log s; world := w |}.

Definition set_diffusion_model (m : module) (w : World) : World :=
  {| sd_model_checkpoint := sd_model_checkpoint w;
     sd_model := {| is_sdxl := is_sdxl (sd_model w); is_sd2 := is_sd2 (sd_model w);
                    is_sd1 := is_sd1 (sd_model w); is_ssd := is_ssd (sd_model w);
                    diffusion_model := m |};
     checkpoint_filename := checkpoint_filename w;
     files := files w;
     environ := environ w |}.

(** Host code runs on the host's part of the state. *)
Definition in_world {A} (m : eff World A) : eff State A :=
  fun s => let (r, w) := m (world s) in (r, set_world w s).

(** *** [get_calibrate_info] (lines 42-58) *)

(** The body of the [for line in f.readlines()] loop. The right-hand
    side of the assignment is evaluated before the subscript target. *)
Definition calibrate_line (line : string)
  : result (string * calibrate_entry float_t) :=
  let line := strip line in
  let items := split " " line in
  item1 ← index items 1;
  scale ← float item1;
  item2 ← index items 2;
  zero_point ← int item2;
  item3 ← index items 3;
  values ← comprehension float (split "," item3);
  name ← index items 0;
  Ok (name, (scale, zero_point, values)).

Fixpoint calibrate_lines (lines : list string) (calibrate_info : calibrate_info_t)
  : result calibrate_info_t :=
  match lines with
  | [] => Ok calibrate_info
  | line :: rest =>
      match calibrate_line line with
      | Raise e => Raise e
      | Ok (name, entry) => calibrate_lines rest (<[name := entry]> calibrate_info)
      end
  end.

Definition get_calibrate_info (filename : string)
  : eff State (option calibrate_info_t) :=
  fun s =>
    let dir := parent (checkpoint_filename (world s)) in
    match files (world s) !! (dir, filename) with
    | None => (Ok None, s)
    | Some text =>
        let s1 := emit (InfoGotCalibrate dir filename) s in
        match calibrate_lines (readlines text) ∅ with
        | Ok calibrate_info => (Ok (Some calibrate_info), s1)
        | Raise e => (Raise e, s1)
        end
    end.

(** *** [compile_unet] (lines 61-88)

    [compile_ldm_unet], [compile_sgm_unet] and [quantize_model] are defined
    outside this file: their results are the constructors of [module], so
    this definition covers the calls in which they return. What [run] does
    when one of them raises is stated with [run_with] below. *)

Definition compile_unet (unet_model : module) (quantization use_graph : bool)
  : eff State module :=
  (exec modify (emit (CallCompileUnet unet_model quantization));
   do compiled_unet <-
     match class_of unet_model with
     | UNetModelLDM => ret (compile_ldm_unet unet_model use_graph)
     | UNetModelSGM => ret (compile_sgm_unet unet_model use_graph)
     | cls =>
         exec modify (emit (WarnUnsupportedModelType cls));
         ret unet_model
     end;
   if quantization then
     do stem_ <- gets (fun s => stem (checkpoint_filename (world s)));
     do calibrate_info <- get_calibrate_info (stem_ +:+ "_sd_calibrate_info.txt");
     ret (quantize_model compiled_unet false calibrate_info)
   else ret compiled_unet)%eff.

(** *** [UnetCompileCtx] (lines 91-104) *)

Definition UnetCompileCtx : ctx_manager State :=
  {| cm_self := module;
     cm_enter := fun s =>
       let _original_model := diffusion_model (sd_model (world s)) in
       match compiled_unet s with
       | Unbound => (Raise (NameError "compiled_unet"), s)
       | Bound unet =>
           (Ok _original_model, set_world (set_diffusion_model unet (world s)) s)
       end;
     cm_exit := fun _original_model _ s =>
       (Ok false, set_world (set_diffusion_model _original_model (world s)) s) |}.

(** *** [Script.need_compile] (lines 149-175) and [torch_gc] *)

(** [getattr(model, key, False)] for the attributes the script reads. *)
Definition getattr_flag (model : SdModel float_t) (key : string) : bool :=
  default false
    (if decide (key = "is_sdxl") then is_sdxl model
     else if decide (key = "is_sd2") then is_sd2 model
     else if decide (key = "is_sd1") then is_sd1 model
     else if decide (key = "is_ssd") then is_ssd model
     else None).

Definition get_model_type (model : SdModel float_t) : model_type :=
  [ ("is_sdxl", getattr_flag model "is_sdxl");
    ("is_sd2", getattr_flag model "is_sd2");
    ("is_sd1", getattr_flag model "is_sd1");
    ("is_ssd", getattr_flag model "is_ssd") ].

(** The [for key, v in self.current_type.items()] loop with its
    [break]; the result is the value of [recompile] after the loop. *)
Fixpoint type_changed (items : model_type) (model : SdModel float_t) : bool :=
  match items with
  | [] => false
  | (key, v) :: rest =>
      if negb (Bool.eqb v (getattr_flag model key)) then true
      else type_changed rest model
  end.

Definition need_compile (model : SdModel float_t) : eff State bool :=
  fun s =>
    let recompile :=
      match current_type s with
      | None => true
      | Some items => type_changed items model
      end in
    if recompile then
      (Ok recompile, set_current_type (Some (get_model_type model)) s)
    else if parse_boolean_from_env (environ (world s))
              "ONEFLOW_MLIR_ENABLE_INFERENCE_OPTIMIZATION" "1" then
      (Ok recompile, emit WarnReuseNeedsEnv s)
    else (Ok recompile, s).

Definition torch_gc : eff State unit := modify (emit TorchGc).

(** *** [Script.run] (lines 183-217) *)

(** [del compiled_unet] on the global. *)
Definition del_compiled_unet : eff State unit :=
  fun s =>
    match compiled_unet s with
    | Unbound => (Raise (NameError "compiled_unet"), s)
    | Bound _ => (Ok tt, set_compiled_unet Unbound s)
    end.

(** The condition of the [if] at lines 192-196: [and] binds tighter
    than [or], and [or] does not evaluate [need_compile] when its left
    operand is true. *)
Definition run_condition (quantization : bool) (ckpt_name : string)
  : eff State bool :=
  fun s =>
    if quantization && bool_decide (Some ckpt_name <> compiled_ckpt_name s)
    then (Ok true, s)
    else need_compile (sd_model (world s)) s.

(** Lines 184-213: decide, and compile when needed. *)
Definition run_compile (quantization : bool) : eff State unit :=
  (do current_checkpoint <- gets (fun s => sd_model_checkpoint (world s));
   do original_diffusion_model <- gets (fun s => diffusion_model (sd_model (world s)));
   let ckpt_name :=
     if quantization then current_checkpoint +:+ "_quantized"
     else current_checkpoint in
   do recompile <- run_condition quantization ckpt_name;
   if recompile then
     exec del_compiled_unet;
     exec torch_gc;
     do unet <- compile_unet original_diffusion_model quantization true;
     exec modify (set_compiled_unet (Bound unet));
     exec modify (set_compiled_ckpt_name (Some ckpt_name));
     torch_gc
   else
     do current <- gets current_type;
     modify (emit (InfoSkipCompile current_checkpoint current)))%eff.

(** Lines 215-216: what the three inner managers enclose. *)
Definition run_inner (p : params) : eff World (option Processed) :=
  with_ VaeCompileCtx
    (with_ SD21CompileCtx
       (with_ HijackLoraActivate
          (do r <- process_images p; ret (Some r))%eff)).

(** Lines 215-217: the [with] statement and the [return]. The local
    [proc] is bound only if the assignment in the body has run. *)
Definition run_process (p : params) : eff State Processed :=
  (do proc <- with_ UnetCompileCtx (in_world (run_inner p));
   match proc with
   | Some r => ret r
   | None => raise (UnboundLocalError "proc")
   end)%eff.

Definition run (p : params) (quantization : bool) : eff State Processed :=
  (exec run_compile quantization; run_process p)%eff.

(** ** Vocabulary of the properties *)

(** *** The calibration file format

    A row of the file, [<name> <scale> <zero_point> <floats>], as its four
    fields; a field is a non-empty string without whitespace. *)
Definition field (s : string) : bool :=
  negb (bool_decide (s = EmptyString)) && all_chars (fun c => negb (is_space c)) s.

Definition calibration_row : Type := string * string * string * string.

Definition render_row (row : calibration_row) : string :=
  let '(name, scale, zero_point, values) := row in
  name +:+ " " +:+ scale +:+ " " +:+ zero_point +:+ " " +:+ values.

(** The text of a file with one row per line; the last line may or may
    not end in a newline. *)
Fixpoint render_file (rows : list calibration_row) (final_newline : bool) : string :=
  match rows with
  | [] => EmptyString
  | row :: rest =>
      match rest with
      | [] => render_row row +:+ (if final_newline then String LF EmptyString else EmptyString)
      | _ => render_row row +:+ String LF (render_file rest final_newline)
      end
  end.

(** The entry a row stands for: the name, mapped to the scale as a
    float, the zero point as an int and the list of floats. *)
Definition row_entry (row : calibration_row)
    (entry : string * calibrate_entry float_t) : Prop :=
  let '(name, scale, zero_point, values) := row in
  field name = true /\ field scale = true /\
  field zero_point = true /\ field values = true /\
  entry.1 = name /\
  float scale = Ok entry.2.1.1 /\
  int zero_point = Ok entry.2.1.2 /\
  comprehension float (split ","%char values) = Ok entry.2.2.

(** *** Observing compilations

    [compile_unet] records each call in the log; the number of such records
    is the number of compilations so far. *)
Definition is_compile_call (e : event float_t) : bool :=
  match e with CallCompileUnet _ _ => true | _ => false end.

Fixpoint compile_calls (l : list (event float_t)) : nat :=
  match l with
  | [] => 0
  | e :: rest => (if is_compile_call e then 1 else 0) + compile_calls rest
  end%nat.

(** What a step leaves alone: the host ([world]) or the script's cache
    ([compiled_unet], [compiled_ckpt_name]) and its compilation count. *)
Definition same_world (s s' : State) : Prop := world s' = world s.

Definition same_cache (s s' : State) : Prop :=
  compiled_unet s' = compiled_unet s /\
  compiled_ckpt_name s' = compiled_ckpt_name s /\
  compile_calls (log s') = compile_calls (log s).

(** The cache key [run] computes for a request. *)
Definition request_key (quantization : bool) (w : World) : string :=
  if quantization then sd_model_checkpoint w +:+ "_quantized"
  else sd_model_checkpoint w.

(** A context manager of the host that always enters and never suppresses
    or replaces an exception in flight. *)
Definition lets_through (cm : ctx_manager World) : Prop :=
  (forall w, exists self w', cm_enter cm w = (Ok self, w')) /\
  (forall self e w, exists w', cm_exit cm self (Some e) w = (Ok false, w')).

(** The names of the four architecture-family attributes. *)
Definition flag_keys : list string := ["is_sdxl"; "is_sd2"; "is_sd1"; "is_ssd"].

(** *** The compile step of [run], whatever [compile_unet] does

    [compile_unet] calls two compilers and a quantizer that are defined
    elsewhere and may raise. [run_compile_with compile] is lines 184-213
    around any compile step, [run_with] is [run] around it; with
    [compile_unet] for [compile] they are [run_compile] and [run]. *)
Definition run_compile_with
    (compile : module -> bool -> bool -> eff State module)
    (quantization : bool) : eff State unit :=
  (do current_checkpoint <- gets (fun s => sd_model_checkpoint (world s));
   do original_diffusion_model <- gets (fun s => diffusion_model (sd_model (world s)));
   let ckpt_name :=
     if quantization then current_checkpoint +:+ "_quantized"
     else current_checkpoint in
   do recompile <- run_condition quantization ckpt_name;
   if recompile then
     exec del_compiled_unet;
     exec torch_gc;
     do unet <- compile original_diffusion_model quantization true;
     exec modify (set_compiled_unet (Bound unet));
     exec modify (set_compiled_ckpt_name (Some ckpt_name));
     torch_gc
   else
     do current <- gets current_type;
     modify (emit (InfoSkipCompile current_checkpoint current)))%eff.

Definition run_with (compile : module -> bool -> bool -> eff State module)
    (p : params) (quantization : bool) : eff State Processed :=
  (exec run_compile_with compile quantization; run_process p)%eff.

(** A compile step does not assign the script's two globals. *)
Definition keeps_globals (compile : module -> bool -> bool -> eff State module)
  : Prop :=
  forall unet_model quantization use_graph s,
    compiled_unet (compile unet_model quantization use_graph s).2 = compiled_unet s /\
    compiled_ckpt_name (compile unet_model quantization use_graph s).2
    = compiled_ckpt_name s.

End Script.

End Webui.

(* ===================================================================== *)
(** * infer_compiler/__init__.py: the torch.compile backend *)
(* ===================================================================== *)

Module Bridge.

(** A tensor, as far as a change of representation is concerned: its shape,
    the bit patterns of its elements in logical (row-major) order, and
    whether its memory layout is contiguous. *)
Record tensor : Type := {
  shape : list nat;
  elements : list Z;
  is_contiguous : bool;
}.

(** Python values that travel through [wrapped_forward]. [Scalar] stands
    for every leaf that is not a tensor. *)
#[local] Set Warnings "-register-all".
Inductive value : Type :=
| TorchTensor (t : tensor)
| FlowTensor (t : tensor)
| Scalar (z : Z)
| Tuple (items : list value)
| PyList (items : list value)
| Dict (items : list (string * value)).

(** [Tensor.contiguous()]: the same tensor in contiguous layout. *)
Definition contiguous (t : tensor) : tensor :=
  {| shape := shape t; elements := elements t; is_contiguous := true |}.

(** [flow.utils.tensor.from_torch] and [to_torch] of the oneflow library
    share the memory of their argument (DLPack). [from_torch] is only
    called on a [torch.Tensor] here; [to_torch] asserts that its argument
    is a [flow.Tensor]. *)
Definition from_torch (torch_tensor : tensor) : value := FlowTensor torch_tensor.

Definition to_torch (v : value) : result value :=
  match v with
  | FlowTensor t => Ok (TorchTensor t)
  | _ => Raise (AssertionError "to_torch: not a flow.Tensor")
  end.

(** [ArgsTree.map_leaf] of the oneflow library: tuples, lists and dicts
    are rebuilt around the mapped items, anything else is a leaf. *)
Fixpoint map_leaf (f : value -> value) (v : value) : value :=
  match v with
  | Tuple items => Tuple (List.map (map_leaf f) items)
  | PyList items => PyList (List.map (map_leaf f) items)
  | Dict items =>
      Dict (List.map (fun kv => match kv with (k, x) => (k, map_leaf f x) end) items)
  | leaf => f leaf
  end.

(** [input_fn] (lines 23-27) *)
Definition input_fn (v : value) : value :=
  match v with
  | TorchTensor t => from_torch (contiguous t)
  | _ => v
  end.

(** Lines 38-40: the conversion of the output. *)
Definition convert_output (output : value) : result value :=
  match output with
  | Tuple items =>
      match comprehension to_torch items with
      | Ok converted => Ok (Tuple converted)
      | Raise e => Raise e
      end
  | _ => to_torch output
  end.

(** [wrapped_forward] (lines 22-40) around the callable that executes the
    graph ([transformed_fn], or the interpreter when [with_interp] is set).
    Only [args] is replaced by its converted form; [kwargs] is passed on as
    it came. *)
Definition wrapped_forward
    (callee : list value -> list (string * value) -> result value)
    (args : list value) (kwargs : list (string * value)) : result value :=
  let out := map_leaf input_fn (Tuple [Tuple args; Dict kwargs]) in
  match out with
  | Tuple (Tuple args' :: _) =>
      match callee args' kwargs with
      | Ok output => convert_output output
      | Raise e => Raise e
      end
  | _ => Raise (TypeError "out[0]")
  end.

(** The two directions of the bridge as the specification names them. *)
Definition to_backend (x : value) : value := map_leaf input_fn x.
Definition to_host (y : value) : result value := convert_output y.

(** The content of a value, independent of which side of the bridge it is
    on and of the memory layout of its tensors. *)
Fixpoint content (v : value) : value :=
  match v with
  | TorchTensor t | FlowTensor t => TorchTensor (contiguous t)
  | Scalar z => Scalar z
  | Tuple items => Tuple (List.map content items)
  | PyList items => PyList (List.map content items)
  | Dict items =>
      Dict (List.map (fun kv => match kv with (k, x) => (k, content x) end) items)
  end.

(** A value as the host sees it: no backend tensors inside. *)
Fixpoint host_value (v : value) : bool :=
  match v with
  | TorchTensor _ | Scalar _ => true
  | FlowTensor _ => false
  | Tuple items | PyList items => forallb host_value items
  | Dict items => forallb (fun kv => match kv with (_, x) => host_value x end) items
  end.

(** Induction on values, with the hypothesis for every item of a tuple,
    list or dict. *)
Section ValueInduction.
Variable P : value -> Prop.
Hypothesis Htorch : forall t, P (TorchTensor t).
Hypothesis Hflow : forall t, P (FlowTensor t).
Hypothesis Hscalar : forall z, P (Scalar z).
Hypothesis Htuple : forall items, Forall P items -> P (Tuple items).
Hypothesis Hlist : forall items, Forall P items -> P (PyList items).
Hypothesis Hdict : forall items, Forall (fun kv => P kv.2) items -> P (Dict items).

Fixpoint value_nested_ind (v : value) : P v :=
  match v with
  | TorchTensor t => Htorch t
  | FlowTensor t => Hflow t
  | Scalar z => Hscalar z
  | Tuple items =>
      Htuple items
        ((fix all (l : list value) : Forall P l :=
            match l with
            | [] => @List.Forall_nil _ P
            | x :: rest => @List.Forall_cons _ P x rest (value_nested_ind x) (all rest)
            end) items)
  | PyList items =>
      Hlist items
        ((fix all (l : list value) : Forall P l :=
            match l with
            | [] => @List.Forall_nil _ P
            | x :: rest => @List.Forall_cons _ P x rest (value_nested_ind x) (all rest)
            end) items)
  | Dict items =>
      Hdict items
        ((fix all (l : list (string * value)) : Forall (fun kv => P kv.2) l :=
            match l with
            | [] => @List.Forall_nil _ _
            | kv :: rest =>
                @List.Forall_cons _ (fun kv => P kv.2) kv rest
                  (match kv return P kv.2 with (_, x) => value_nested_ind x end)
                  (all rest)
            end) items)
  end.

End ValueInduction.

(** The values for which the conversion of the output is defined: one
    host tensor, or a tuple of host tensors. *)
Definition is_torch_tensor (v : value) : bool :=
  match v with TorchTensor _ => true | _ => false end.

Definition tensor_or_tuple (v : value) : bool :=
  match v with
  | TorchTensor _ => true
  | Tuple items => forallb is_torch_tensor items
  | _ => false
  end.

(** Every tensor in the value already has contiguous layout. *)
Fixpoint all_contiguous (v : value) : bool :=
  match v with
  | TorchTensor t | FlowTensor t => is_contiguous t
  | Scalar _ => true
  | Tuple items | PyList items => forallb all_contiguous items
  | Dict items => forallb (fun kv => match kv with (_, x) => all_contiguous x end) items
  end.

(** No host tensor is left in the value. *)
Fixpoint no_torch_tensor (v : value) : bool :=
  match v with
  | TorchTensor _ => false
  | FlowTensor _ | Scalar _ => true
  | Tuple items | PyList items => forallb no_torch_tensor items
  | Dict items => forallb (fun kv => match kv with (_, x) => no_torch_tensor x end) items
  end.

(** The outputs lines 38-40 can convert: one backend tensor, or a tuple of
    backend tensors. *)
Definition is_flow_tensor (v : value) : bool :=
  match v with FlowTensor _ => true | _ => false end.

Definition flow_output (v : value) : bool :=
  match v with
  | FlowTensor _ => true
  | Tuple items => forallb is_flow_tensor items
  | _ => false
  end.

End Bridge.

(* ===================================================================== *)
(** * infer_compiler/oneflow/deployable_module.py: the wrapper *)
(* ===================================================================== *)

Module Deployable.

(** The compile options the wrapper reads ([OneflowCompileOptions]). *)
Record Options : Type := {
  use_graph : bool;
  max_cached_graph_size : Z;
  debug_level : Z;
  graph_file : option string;
}.

Section Wrapper.
(** Devices, the arguments of [to], and the inputs and outputs of a call
    are the backend's. *)
Context {device to_args input output : Type}.

(** The backend-side counterpart of a torch module, by the module it was
    converted from. *)
Record OneflowModule : Type := {
  converted_from : string;
}.

(** Modelled from the spec: the dual module ([get_mixed_dual_module] is not
    part of these sources) holds references to both the original module
    and, later, its compiled counterpart; the counterpart is created on
    first use and can be discarded. [moved] lists the [to] calls it has
    received. *)
Record DualModule : Type := {
  _torch_module : string;
  _oneflow_module : option OneflowModule;
  moved : list to_args;
}.

(** A graph handle, by what [get_oneflow_graph] was given and what the
    wrapper reads from it: its blocks, the devices of its state tensors in
    iteration order, and the [debug] calls it has received. *)
Record Graph : Type := {
  model : OneflowModule;
  size : Z;
  dynamic : bool;
  _blocks : list string;
  _state : list device;
  debug : list Z;
}.

(** The wrapper's attributes, and the number of graph handles built for
    it so far. *)
Record Wrapper : Type := {
  _deployable_module_model : DualModule;
  _deployable_module_enable_dynamic : bool;
  _deployable_module_quant_config : option string;
  _deployable_module_options : Options;
  _deployable_module_dpl_graph : option Graph;
  _is_raw_deployable_module : bool;
  _load_graph_first_run : bool;
  built : nat;
}.

End Wrapper.
Arguments DualModule : clear implicits.
Arguments Graph : clear implicits.
Arguments Wrapper : clear implicits.

(** What the wrapper calls and does not define: [parse_device] and
    [check_device] of [param_utils], [get_oneflow_graph] of [.utils],
    [transform_mgr.debug_mode], the conversion of a torch module, and the
    execution of a graph or of a backend module on inputs. *)
Class Backend : Type := {
  device : Type;
  to_args : Type;
  input : Type;
  output : Type;
  parse_device : to_args -> option device;
  check_device : device -> device -> bool;
  get_oneflow_graph : OneflowModule -> Z -> bool -> result (Graph device);
  debug_mode : bool;
  torch2oflow : string -> result OneflowModule;
  call_graph : Graph device -> input -> result output;
  call_module : OneflowModule -> input -> result output;
  default_options : Options;
}.

Section Methods.
Context `{Backend}.

Abbreviation Wrapper := (Wrapper device to_args).
Abbreviation Graph := (Graph device).
Abbreviation DualModule := (DualModule to_args).

(** *** Attribute assignment *)

Definition set_model (m : DualModule) (w : Wrapper) : Wrapper :=
  {| _deployable_module_model := m;
     _deployable_module_enable_dynamic := _deployable_module_enable_dynamic w;
     _deployable_module_quant_config := _deployable_module_quant_config w;
     _deployable_module_options := _deployable_module_options w;
     _deployable_module_dpl_graph := _deployable_module_dpl_graph w;
     _is_raw_deployable_module := _is_raw_deployable_module w;
     _load_graph_first_run := _load_graph_first_run w;
     built := built w |}.

Definition set_options (o : Options) (w : Wrapper) : Wrapper :=
  {| _deployable_module_model := _deployable_module_model w;
     _deployable_module_enable_dynamic := _deployable_module_enable_dynamic w;
     _deployable_module_quant_config := _deployable_module_quant_config w;
     _deployable_module_options := o;
     _deployable_module_dpl_graph := _deployable_module_dpl_graph w;
     _is_raw_deployable_module := _is_raw_deployable_module w;
     _load_graph_first_run := _load_graph_first_run w;
     built := built w |}.

Definition set_dpl_graph (g : option Graph) (w : Wrapper) : Wrapper :=
  {| _deployable_module_model := _deployable_module_model w;
     _deployable_module_enable_dynamic := _deployable_module_enable_dynamic w;
     _deployable_module_quant_config := _deployable_module_quant_config w;
     _deployable_module_options := _deployable_module_options w;
     _deployable_module_dpl_graph := g;
     _is_raw_deployable_module := _is_raw_deployable_module w;
     _load_graph_first_run := _load_graph_first_run w;
     built := built w |}.

Definition set_load_graph_first_run (b : bool) (w : Wrapper) : Wrapper :=
  {| _deployable_module_model := _deployable_module_model w;
     _deployable_module_enable_dynamic := _deployable_module_enable_dynamic w;
     _deployable_module_quant_config := _deployable_module_quant_config w;
     _deployable_module_options := _deployable_module_options w;
     _deployable_module_dpl_graph := _deployable_module_dpl_graph w;
     _is_raw_deployable_module := _is_raw_deployable_module w;
     _load_graph_first_run := b;
     built := built w |}.

Definition count_built (w : Wrapper) : Wrapper :=
  {| _deployable_module_model := _deployable_module_model w;
     _deployable_module_enable_dynamic := _deployable_module_enable_dynamic w;
     _deployable_module_quant_config := _deployable_module_quant_config w;
     _deployable_module_options := _deployable_module_options w;
     _deployable_module_dpl_graph := _deployable_module_dpl_graph w;
     _is_raw_deployable_module := _is_raw_deployable_module w;
     _load_graph_first_run := _load_graph_first_run w;
     built := S (built w) |}.

Definition set_graph_file_option (p : option string) (o : Options) : Options :=
  {| use_graph := use_graph o;
     max_cached_graph_size := max_cached_graph_size o;
     debug_level := debug_level o;
     graph_file := p |}.

Definition add_debug (level : Z) (g : Graph) : Graph :=
  {| model := model g; size := size g; dynamic := dynamic g;
     _blocks := _blocks g; _state := _state g; debug := debug g ++ [level] |}.

(** *** The dual module *)

(** The [oneflow_module] property: the counterpart, converted now if there
    is none yet. *)
Definition oneflow_module : eff Wrapper OneflowModule :=
  fun w =>
    let m := _deployable_module_model w in
    match _oneflow_module m with
    | Some om => (Ok om, w)
    | None =>
        match torch2oflow (_torch_module m) with
        | Ok om =>
            (Ok om, set_model {| _torch_module := _torch_module m;
                                 _oneflow_module := Some om;
                                 moved := moved m |} w)
        | Raise e => (Raise e, w)
        end
    end.

(** [del self._deployable_module_model.oneflow_module] *)
Definition del_oneflow_module (w : Wrapper) : Wrapper :=
  let m := _deployable_module_model w in
  set_model {| _torch_module := _torch_module m;
               _oneflow_module := None;
               moved := moved m |} w.

(** [self._deployable_module_model.to] with the caller's arguments. *)
Definition model_to (args : to_args) (w : Wrapper) : Wrapper :=
  let m := _deployable_module_model w in
  set_model {| _torch_module := _torch_module m;
               _oneflow_module := _oneflow_module m;
               moved := moved m ++ [args] |} w.

(** *** [__init__] (lines 19-37) *)
Definition init (torch_module : string) (oneflow_module_ : option OneflowModule)
    (dynamic_ : bool) (options : option Options) : Wrapper :=
  {| _deployable_module_model :=
       {| _torch_module := torch_module;
          _oneflow_module := oneflow_module_;
          moved := [] |};
     _deployable_module_enable_dynamic := dynamic_;
     _deployable_module_quant_config := None;
     _deployable_module_options := default default_options options;
     _deployable_module_dpl_graph := None;
     _is_raw_deployable_module := true;
     _load_graph_first_run := true;
     built := 0 |}.

(** *** [get_graph] (lines 59-74) *)
Definition get_graph : eff Wrapper Graph :=
  fun w =>
    match _deployable_module_dpl_graph w with
    | Some g => (Ok g, w)
    | None =>
        match oneflow_module w with
        | (Raise e, w1) => (Raise e, w1)
        | (Ok om, w1) =>
            let options := _deployable_module_options w1 in
            match get_oneflow_graph om (max_cached_graph_size options)
                    (_deployable_module_enable_dynamic w1) with
            | Raise e => (Raise e, w1)
            | Ok g0 =>
                let g1 := if debug_mode then add_debug 0 g0 else g0 in
                let g2 := if (0 <? debug_level options)%Z
                          then add_debug (debug_level options) g1 else g1 in
                (Ok g2, count_built (set_dpl_graph (Some g2) w1))
            end
        end
    end.

(** *** [forward] (lines 95-103)

    The body of the method. The four decorators around it are defined
    outside these sources. *)
Definition forward (args : input) : eff Wrapper output :=
  fun w =>
    if use_graph (_deployable_module_options w) then
      match get_graph w with
      | (Raise e, w1) => (Raise e, w1)
      | (Ok dpl_graph, w1) => (call_graph dpl_graph args, w1)
      end
    else
      match oneflow_module w with
      | (Raise e, w1) => (Raise e, w1)
      | (Ok om, w1) => (call_module om args, w1)
      end.

(** *** [to] (lines 105-122); the result [tt] stands for [return self]. *)
Definition to (args : to_args) : eff Wrapper unit :=
  fun w =>
    match _deployable_module_dpl_graph w with
    | None => (Ok tt, model_to args w)
    | Some g =>
        let target_device := parse_device args in
        let check :=
          match target_device with
          | Some target =>
              if (0 <? length (_blocks g))%nat then
                match _state g with
                | [] => Raise StopIteration
                | current_device :: _ =>
                    if negb (check_device current_device target)
                    then Raise (RuntimeError
                      "After graph built, the device of graph can't be modified")
                    else Ok tt
                end
              else Ok tt
          | None => Ok tt
          end in
        match check with
        | Raise e => (Raise e, w)
        | Ok _ => (Ok tt, model_to args w)
        end
    end.

(** *** [set_graph_file] and its helpers (lines 157-177) *)

Definition get_graph_file (w : Wrapper) : option string :=
  graph_file (_deployable_module_options w).

Definition _clear_old_graph (w : Wrapper) : Wrapper :=
  del_oneflow_module (set_dpl_graph None (set_load_graph_first_run true w)).

(** The truth value of [file_path] in [if file_path and ...]: [None] and
    the empty string are false. *)
Definition truthy (file_path : option string) : bool :=
  match file_path with
  | None => false
  | Some p => negb (bool_decide (p = EmptyString))
  end.

Definition set_graph_file (file_path : option string) (w : Wrapper) : Wrapper :=
  let old_file_path := get_graph_file w in
  if truthy file_path && bool_decide (old_file_path = file_path) then w
  else
    _clear_old_graph
      (set_options (set_graph_file_option file_path (_deployable_module_options w)) w).

(** *** [apply_model] (lines 79-89)

    The body of the method, like [forward]; without [use_graph] it calls
    the [apply_model] method of the backend module. *)
Variable call_apply_model : OneflowModule -> input -> result output.

Definition apply_model (args : input) : eff Wrapper output :=
  fun w =>
    if use_graph (_deployable_module_options w) then
      match get_graph w with
      | (Raise e, w1) => (Raise e, w1)
      | (Ok dpl_graph, w1) => (call_graph dpl_graph args, w1)
      end
    else
      match oneflow_module w with
      | (Raise e, w1) => (Raise e, w1)
      | (Ok om, w1) => (call_apply_model om args, w1)
      end.

(** *** [load_graph] and [save_graph] (lines 148-152)

    The methods of the graph object are the backend's: each may raise and
    may change the graph it is called on, which is the object the wrapper
    holds. *)
Variable graph_load_graph :
  Graph -> string -> option device -> bool -> result unit * Graph.
Variable graph_save_graph : Graph -> string -> result unit * Graph.

Definition load_graph (file_path : string) (device_ : option device)
    (run_warmup : bool) : eff Wrapper unit :=
  fun w =>
    match get_graph w with
    | (Raise e, w1) => (Raise e, w1)
    | (Ok g, w1) =>
        let (r, g') := graph_load_graph g file_path device_ run_warmup in
        (r, set_dpl_graph (Some g') w1)
    end.

Definition save_graph (file_path : string) : eff Wrapper unit :=
  fun w =>
    match get_graph w with
    | (Raise e, w1) => (Raise e, w1)
    | (Ok g, w1) =>
        let (r, g') := graph_save_graph g file_path in
        (r, set_dpl_graph (Some g') w1)
    end.

(** *** [apply_online_quant] (lines 179-198) *)
Definition apply_online_quant (quant_config : string) (w : Wrapper) : Wrapper :=
  {| _deployable_module_model := _deployable_module_model w;
     _deployable_module_enable_dynamic := _deployable_module_enable_dynamic w;
     _deployable_module_quant_config := Some quant_config;
     _deployable_module_options := _deployable_module_options w;
     _deployable_module_dpl_graph := _deployable_module_dpl_graph w;
     _is_raw_deployable_module := _is_raw_deployable_module w;
     _load_graph_first_run := _load_graph_first_run w;
     built := built w |}.

End Methods.

End Deployable.

(* ===================================================================== *)
(** * scripts/onediff.py: [generate_graph_path] *)
(* ===================================================================== *)

Module GraphPath.

(** [os.path.join] on POSIX paths: a component that starts with [/]
    discards what was joined before it; any other component is appended,
    after a [/] unless the path so far is empty or already ends in one. *)
Definition starts_with_sep (s : string) : bool :=
  match s with
  | String c _ => Ascii.eqb c "/"
  | EmptyString => false
  end.

Fixpoint ends_with_sep (s : string) : bool :=
  match s with
  | EmptyString => false
  | String c EmptyString => Ascii.eqb c "/"
  | String _ rest => ends_with_sep rest
  end.

Definition join2 (path b : string) : string :=
  if starts_with_sep b then b
  else if bool_decide (path = EmptyString) || ends_with_sep path then path +:+ b
  else path +:+ "/" +:+ b.

Definition join (a : string) (ps : list string) : string := foldl join2 a ps.

(** The two output directories of [shared.opts] the function reads. *)
Record Opts : Type := {
  outdir_samples : string;
  outdir_txt2img_samples : string;
}.

Section GenerateGraphPath.
(** The file system is the host's; [os.makedirs(path, exist_ok=True)] acts
    on it and may raise. The two version strings are those of the installed
    packages. *)
Context {FS : Type}.
Variable makedirs : string -> eff FS unit.
Variable onediff_version oneflow_version : string.

(** [a or b] on strings. *)
Definition or_else (a b : string) : string :=
  if bool_decide (a = EmptyString) then b else a.

(** The directory of line 32 and the file name of line 35. *)
Definition graphs_dir (opts : Opts) (ckpt_name : string) : string :=
  join (or_else (outdir_samples opts) (outdir_txt2img_samples opts))
    ["graphs"; ckpt_name].

Definition graph_file_name (model_name : string) : string :=
  model_name +:+ "_graph_" +:+ onediff_version +:+ "_oneflow_" +:+ oneflow_version.

(** [generate_graph_path] (lines 30-39) *)
Definition generate_graph_path (opts : Opts) (ckpt_name model_name : string)
  : eff FS string :=
  (let base_output_dir :=
     or_else (outdir_samples opts) (outdir_txt2img_samples opts) in
   let save_ckpt_graphs_path := join base_output_dir ["graphs"; ckpt_name] in
   exec makedirs save_ckpt_graphs_path;
   let file_name :=
     model_name +:+ "_graph_" +:+ onediff_version +:+ "_oneflow_" +:+ oneflow_version in
   let graph_file_path := join save_ckpt_graphs_path [file_name] in
   ret graph_file_path)%eff.

End GenerateGraphPath.

End GraphPath.

(* ===================================================================== *)
(** * install.py *)
(* ===================================================================== *)

Module Install.

Section Install.
(** The launcher's view of the Python environment is the host's:
    [launch.is_installed] reads it, [launch.run_pip] acts on it and may
    raise. *)
Context {Env : Type}.
Variable is_installed : Env -> string -> bool.
Variable run_pip : string -> eff Env unit.

(** What [install] has printed and which pip commands it has issued, next
    to the environment. *)
Record State : Type := {
  env : Env;
  printed : list string;
  pip_commands : list string;
}.

Definition print (msg : string) : eff State unit :=
  fun s => (Ok tt, {| env := env s; printed := printed s ++ [msg];
                      pip_commands := pip_commands s |}).

Definition launch_run_pip (command : string) : eff State unit :=
  fun s =>
    let (r, e) := run_pip command (env s) in
    (r, {| env := e; printed := printed s;
           pip_commands := pip_commands s ++ [command] |}).

Definition oneflow_command : string :=
  "install --pre oneflow -f https://github.com/siliconflow/oneflow_releases/releases/expanded_assets/community_cu118".

Definition onediff_command : string :=
  "install git+https://github.com/siliconflow/onediff.git".

(** [install] (lines 4-13) *)
Definition install : eff State unit :=
  (exec (fun s =>
           if negb (is_installed (env s) "oneflow") then
             (exec print "oneflow is not installed! Installing...";
              launch_run_pip oneflow_command) s
           else (Ok tt, s));
   fun s =>
     if negb (is_installed (env s) "onediff") then
       (exec print "onediff is not installed! Installing...";
        launch_run_pip onediff_command) s
     else (Ok tt, s))%eff.

End Install.

End Install.

(* ===================================================================== *)
(** * Sample hosts and inputs *)
(* ===================================================================== *)

Module Samples.
Import Webui.

(** A reading of [float] on plain decimal literals, [[sign] digits
    [. digits]], by the exact value they denote. Every literal used below
    is representable in binary64, so no rounding is involved; any other
    literal is a [ValueError] for this instance. *)
Fixpoint decimal_digits (acc : Z) (s : string) : option Z :=
  match s with
  | EmptyString => Some acc
  | String c rest =>
      match digit c with
      | Some d => decimal_digits (10 * acc + d) rest
      | None => None
      end
  end.

Definition decimal_unsigned (t : string) : option Q :=
  match split "."%char t with
  | [i] =>
      if decide (i = EmptyString) then None
      else n ← decimal_digits 0 i; Some (inject_Z n)
  | [i; f] =>
      if bool_decide (i = EmptyString) && bool_decide (f = EmptyString) then None
      else
        n ← decimal_digits 0 i;
        m ← decimal_digits 0 f;
        let scale := 10 ^ Z.of_nat (String.length f) in
        Some (Qred (Qmake (n * scale + m) (Z.to_pos scale)))
  | _ => None
  end.

Definition decimal_float (s : string) : result Q :=
  let value :=
    match strip s with
    | String "+" rest => decimal_unsigned rest
    | String "-" rest => Qopp <$> decimal_unsigned rest
    | t => decimal_unsigned t
    end in
  match value with
  | Some q => Ok q
  | None => Raise (ValueError "could not convert string to float")
  end.

(** A context manager that does nothing and lets exceptions through. *)
Definition null_ctx {St} : ctx_manager St :=
  {| cm_self := unit;
     cm_enter := ret tt;
     cm_exit := fun _ _ => ret false |}.

(** A host whose [process_images] fails when asked to ([p = false]) and
    otherwise reports the module it ran with. The environment flag is read
    as set when the variable is absent or is ["1"]. *)
Definition sample_host : Host :=
  {| float_t := Q;
     float := decimal_float;
     parse_boolean_from_env := fun env name default_ =>
       bool_decide (default default_ (env !! name) = "1");
     params := bool;
     Processed := module Q;
     process_images := fun p w =>
       if p then (Ok (diffusion_model (sd_model w)), w)
       else (Raise (HostError "process_images failed"), w);
     VaeCompileCtx := null_ctx;
     SD21CompileCtx := null_ctx;
     HijackLoraActivate := null_ctx |}.

(** The float type of the sample host. *)
Abbreviation F := (@float_t sample_host).

Definition sd1_model (unet : module F) : SdModel F :=
  {| is_sdxl := Some false; is_sd2 := Some false; is_sd1 := Some true;
     is_ssd := None; diffusion_model := unet |}.

Definition sample_world (checkpoint : string) (unet : module F)
    (files_ : gmap (string * string) string) : World F :=
  {| sd_model_checkpoint := checkpoint;
     sd_model := sd1_model unet;
     checkpoint_filename :=
       {| parent := "/models"; stem := checkpoint; suffix := ".safetensors" |};
     files := files_;
     environ := ∅ |}.

(** The state right after the script is imported. *)
Definition fresh (w : World F) : State F :=
  {| compiled_unet := Bound PyNone;
     compiled_ckpt_name := None;
     current_type := None;
     log := [];
     world := w |}.

Definition unet_a : module F := Eager UNetModelLDM "unet-a".
Definition unet_b : module F := Eager UNetModelLDM "unet-b".
Definition vae : module F := Eager (OtherClass "AutoencoderKL") "vae".

(** The calibration file of the specification's scenario, next to the
    checkpoint [sd15]. *)
Definition calibration_dir : gmap (string * string) string :=
  {[ ("/models", "sd15_sd_calibrate_info.txt") := "conv1 0.5 3 1.0,2.0,3.0" ]}.

Definition conv1_row : calibration_row := ("conv1", "0.5", "3", "1.0,2.0,3.0").

Definition conv1_entry : string * calibrate_entry F :=
  ("conv1", ((1 # 2)%Q, 3, [(1 # 1)%Q; (2 # 1)%Q; (3 # 1)%Q])).

(** Two requests without quantization: the first with checkpoint [a]
    loaded, the second after the user has switched to checkpoint [b] of the
    same family. *)
Definition first_request : State F := fresh (sample_world "a" unet_a ∅).

Definition second_request : State F :=
  set_world (H := sample_host) (sample_world "b" unet_b ∅)
    (run (H := sample_host) true false first_request).2.

(** The very first request, with quantization, and the same request
    again. *)
Definition quantized_again : State F :=
  (run (H := sample_host) true true first_request).2.

(** A calibration file whose only line lacks two fields, and one whose
    row is followed by an empty line. *)
Definition short_line_dir : gmap (string * string) string :=
  {[ ("/models", "sd15_sd_calibrate_info.txt") := "conv1 0.5" ]}.

Definition blank_line_dir : gmap (string * string) string :=
  {[ ("/models", "sd15_sd_calibrate_info.txt") :=
       render_file [conv1_row] true +:+ String LF EmptyString ]}.

Definition empty_file_dir : gmap (string * string) string :=
  {[ ("/models", "sd15_sd_calibrate_info.txt") := EmptyString ]}.

(** A compile step whose compiler fails. *)
Definition compiler_fails (unet_model : module F) (quantization use_graph : bool)
  : eff (State F) (module F) :=
  fun s => (Raise (HostError "compilation failed"), s).

(** The state of the script after a compilation has failed: the global
    [compiled_unet] has been deleted and not bound again. *)
Definition after_failed_compile : State F :=
  (run (H := sample_host) true true
     (fresh (sample_world "sd15" unet_a short_line_dir))).2.

End Samples.

Module BackendSamples.
Import Deployable.

(** A backend with devices named by strings, whose [to] takes an optional
    device, whose graphs have one block with its state on ["cuda:0"], and
    whose [check_device] compares names. *)
Definition sample_backend : Backend :=
  {| device := string;
     to_args := option string;
     input := Z;
     output := Z;
     parse_device := fun args => args;
     check_device := fun current target => bool_decide (current = target);
     get_oneflow_graph := fun om size_ dynamic_ =>
       Ok {| model := om; size := size_; dynamic := dynamic_;
             _blocks := ["model"]; _state := ["cuda:0"]; debug := [] |};
     debug_mode := false;
     torch2oflow := fun name => Ok {| converted_from := name |};
     call_graph := fun _ x => Ok (x + 1);
     call_module := fun _ x => Ok (x + 1);
     default_options :=
       {| use_graph := true; max_cached_graph_size := 9;
          debug_level := -1; graph_file := None |} |}.

(** The wrappers of the sample backend. *)
Abbreviation W := (Wrapper (@device sample_backend) (@to_args sample_backend)).

(** A new wrapper, and the same wrapper after one [forward]. *)
Definition new_wrapper : W :=
  init (H := sample_backend) "unet" None true None.

Definition built_wrapper : W :=
  (forward (H := sample_backend) 0%Z new_wrapper).2.

(** A wrapper whose graph file was set to the empty path before its
    graph was built. *)
Definition empty_path_wrapper : W :=
  (forward (H := sample_backend) 0%Z
     (set_graph_file (H := sample_backend) (Some EmptyString) new_wrapper)).2.

(** A wrapper with graph file ["/tmp/g1"] and a built graph. *)
Definition g1_wrapper : W :=
  (forward (H := sample_backend) 0%Z
     (set_graph_file (H := sample_backend) (Some "/tmp/g1") new_wrapper)).2.

(** A wrapper that does not use the graph. *)
Definition eager_wrapper : W :=
  init (H := sample_backend) "unet" None true
    (Some {| use_graph := false; max_cached_graph_size := 9;
             debug_level := -1; graph_file := None |}).

(** A backend that cannot convert a torch module, and a wrapper of it that
    was given its converted module at construction and has run once. *)
Definition no_conversion_backend : Backend :=
  {| device := string;
     to_args := option string;
     input := Z;
     output := Z;
     parse_device := fun args => args;
     check_device := fun current target => bool_decide (current = target);
     get_oneflow_graph := fun om size_ dynamic_ =>
       Ok {| model := om; size := size_; dynamic := dynamic_;
             _blocks := ["model"]; _state := ["cuda:0"]; debug := [] |};
     debug_mode := false;
     torch2oflow := fun name => Raise (RuntimeError "no converter registered");
     call_graph := fun _ x => Ok (x + 1);
     call_module := fun _ x => Ok (x + 1);
     default_options :=
       {| use_graph := true; max_cached_graph_size := 9;
          debug_level := -1; graph_file := None |} |}.

Definition given_wrapper
  : Wrapper (@device no_conversion_backend) (@to_args no_conversion_backend) :=
  (forward (H := no_conversion_backend) 0%Z
     (init (H := no_conversion_backend) "unet"
        (Some {| converted_from := "unet" |}) true None)).2.

(** A backend whose graph construction fails. *)
Definition no_graph_backend : Backend :=
  {| device := string;
     to_args := option string;
     input := Z;
     output := Z;
     parse_device := fun args => args;
     check_device := fun current target => bool_decide (current = target);
     get_oneflow_graph := fun om size_ dynamic_ =>
       Raise (RuntimeError "graph construction failed");
     debug_mode := false;
     torch2oflow := fun name => Ok {| converted_from := name |};
     call_graph := fun _ x => Ok (x + 1);
     call_module := fun _ x => Ok (x + 1);
     default_options :=
       {| use_graph := true; max_cached_graph_size := 9;
          debug_level := -1; graph_file := None |} |}.

(** Graph methods: a load that finds no file, a save that works. *)
Definition load_fails (g : Graph string) (file_path : string)
    (device_ : option string) (run_warmup : bool) : result unit * Graph string :=
  (Raise (HostError "graph file not found"), g).

Definition save_works (g : Graph string) (file_path : string)
  : result unit * Graph string := (Ok tt, g).

Definition apply_model_of (om : OneflowModule) (x : Z) : result Z := Ok (x + 100).

End BackendSamples.

Module PathSamples.
Import GraphPath.

(** A file system as the list of directories created so far. *)
Definition record_makedirs (path : string) : eff (list string) unit :=
  fun created => (Ok tt, (created ++ [path])%list).

Definition only_txt2img : Opts :=
  {| outdir_samples := EmptyString;
     outdir_txt2img_samples := "outputs/txt2img-images" |}.

End PathSamples.

Module InstallSamples.
Import Install.

(** An environment as the set of installed packages, with a pip that
    installs the package its command names. *)
Definition has (installed : gset string) (package : string) : bool :=
  bool_decide (package ∈ installed).

Definition pip (command : string) : eff (gset string) unit :=
  fun installed =>
    (Ok tt,
     if bool_decide (command = oneflow_command) then {[ "oneflow" ]} ∪ installed
     else if bool_decide (command = onediff_command) then {[ "onediff" ]} ∪ installed
     else installed).

(** A pip without network. *)
Definition pip_offline (command : string) : eff (gset string) unit :=
  fun installed => (Raise (HostError "no network"), installed).

Definition nothing_installed : State (Env := gset string) :=
  {| env := ∅; printed := []; pip_commands := [] |}.

End InstallSamples.

Module BridgeSamples.
Import Bridge.

Definition strided : tensor :=
  {| shape := [2; 2]%nat; elements := [1; 2; 3; 4]; is_contiguous := false |}.

Definition packed : tensor :=
  {| shape := [2]%nat; elements := [5; 6]; is_contiguous := true |}.

End BridgeSamples.

(* ===================================================================== *)
(** * Properties of the string functions *)
(* ===================================================================== *)

Section StrProps.

Lemma app_cons (c : ascii) (s t : string) : String c s +:+ t = String c (s +:+ t).
Proof. reflexivity. Qed.

Lemma app_empty (t : string) : EmptyString +:+ t = t.
Proof. reflexivity. Qed.

Lemma app_empty_r (s : string) : s +:+ EmptyString = s.
Proof. induction s as [|c s IH]; [done|]. by rewrite app_cons, IH. Qed.

Lemma app_assoc_str (a b c : string) : (a +:+ b) +:+ c = a +:+ (b +:+ c).
Proof. induction a as [|x a IH]; [done|]. by rewrite !app_cons, IH. Qed.

Lemma all_chars_impl (p q : ascii -> bool) (s : string) :
  (forall c, p c = true -> q c = true) -> all_chars p s = true -> all_chars q s = true.
Proof.
  intros Hpq. induction s as [|c s IH]; simpl; [done|].
  intros [Hc Hs]%andb_prop. by rewrite (Hpq c Hc), IH.
Qed.

Lemma all_chars_app (p : ascii -> bool) (s t : string) :
  all_chars p (s +:+ t) = all_chars p s && all_chars p t.
Proof.
  induction s as [|c s IH]; [done|].
  rewrite app_cons. simpl. by rewrite IH, andb_assoc.
Qed.

Lemma readlines_line (l rest : string) :
  all_chars (fun c => negb (Ascii.eqb c LF)) l = true ->
  readlines (l +:+ String LF rest) = (l +:+ String LF EmptyString) :: readlines rest.
Proof.
  induction l as [|c l IH]; [done|].
  simpl. intros [Hc Hl]%andb_prop. rewrite !app_cons. simpl.
  apply negb_true_iff in Hc. rewrite Hc. by rewrite IH.
Qed.

Lemma readlines_last (l : string) :
  l <> EmptyString ->
  all_chars (fun c => negb (Ascii.eqb c LF)) l = true ->
  readlines l = [l].
Proof.
  induction l as [|c l IH]; [done|].
  simpl. intros _ [Hc Hl]%andb_prop. apply negb_true_iff in Hc. rewrite Hc.
  destruct l as [|d l]; [done|]. by rewrite IH.
Qed.

Lemma split_item (sep : ascii) (a b : string) :
  all_chars (fun c => negb (Ascii.eqb c sep)) a = true ->
  split sep (a +:+ String sep b) = a :: split sep b.
Proof.
  induction a as [|c a IH].
  - intros _. rewrite app_empty. simpl. by rewrite Ascii.eqb_refl.
  - simpl. intros [Hc Ha]%andb_prop. apply negb_true_iff in Hc.
    rewrite ?app_cons. simpl. by rewrite Hc, IH.
Qed.

Lemma split_single (sep : ascii) (a : string) :
  all_chars (fun c => negb (Ascii.eqb c sep)) a = true ->
  split sep a = [a].
Proof.
  induction a as [|c a IH]; [done|].
  simpl. intros [Hc Ha]%andb_prop. apply negb_true_iff in Hc.
  by rewrite Hc, IH.
Qed.

Lemma rstrip_newline (x : string) :
  rstrip (x +:+ String LF EmptyString) = rstrip x.
Proof.
  induction x as [|c x IH]; [done|].
  rewrite app_cons. simpl. by rewrite IH.
Qed.

Lemma rstrip_no_space (y : string) :
  all_chars (fun c => negb (is_space c)) y = true -> rstrip y = y.
Proof.
  induction y as [|c y IH]; [done|].
  simpl. intros [Hc Hy]%andb_prop. apply negb_true_iff in Hc.
  rewrite (IH Hy), Hc. by destruct y.
Qed.

Lemma rstrip_app (x y : string) :
  rstrip y <> EmptyString -> rstrip (x +:+ y) = x +:+ rstrip y.
Proof.
  intros Hy. induction x as [|c x IH]; [done|].
  rewrite !app_cons. simpl. rewrite IH.
  destruct (x +:+ rstrip y) eqn:E; [|done].
  destruct x; [by rewrite app_empty in E|done].
Qed.

Lemma is_space_not (c sep : ascii) :
  is_space sep = true -> negb (is_space c) = true -> negb (Ascii.eqb c sep) = true.
Proof.
  intros Hsep Hc. destruct (Ascii.eqb c sep) eqn:E; [|done].
  apply Ascii.eqb_eq in E as ->. by rewrite Hsep in Hc.
Qed.

(** The functions on the inputs that tell them apart from simpler
    readings of [split], [strip], [readlines] and [int]. *)
Example split_adjacent_separators :
  split " " "a  b" = ["a"; EmptyString; "b"] /\ split "," EmptyString = [EmptyString].
Proof. split; reflexivity. Qed.

Example strip_both_ends :
  strip (" x y " +:+ String LF EmptyString) = "x y" /\ strip "   " = EmptyString.
Proof. split; reflexivity. Qed.

Example readlines_keeps_newlines :
  readlines ("a" +:+ String LF (String LF "b")) =
    ["a" +:+ String LF EmptyString; String LF EmptyString; "b"] /\
  readlines ("a" +:+ String LF EmptyString) = ["a" +:+ String LF EmptyString].
Proof. split; reflexivity. Qed.

Example int_literals :
  int " -1_0 " = Ok (-10) /\ int "+7" = Ok 7 /\
  is_ok (int "1__0") = false /\ is_ok (int "_1") = false /\
  is_ok (int "3.0") = false /\ is_ok (int EmptyString) = false.
Proof. repeat split; reflexivity. Qed.

End StrProps.

(* ===================================================================== *)
(** * Properties of scripts/onediff.py *)
(* ===================================================================== *)

Section WebuiProps.
Import Webui.
Context `{Host}.

Lemma get_model_type_keys (model : SdModel float_t) :
  (get_model_type model).*1 = flag_keys.
Proof. reflexivity. Qed.

Lemma type_changed_true (items : model_type) (model : SdModel float_t) :
  type_changed items model = true <->
  exists key v, (key, v) ∈ items /\ v <> getattr_flag model key.
Proof.
  induction items as [|[key v] rest IH]; simpl.
  - split; [discriminate|]. intros (k & w & Hin & _). inversion Hin.
  - destruct (Bool.eqb v (getattr_flag model key)) eqn:E; simpl.
    + apply Bool.eqb_prop in E. rewrite IH. split.
      * intros (k & w & Hin & Hne). exists k, w. split; [by right|done].
      * intros (k & w & Hin & Hne). apply elem_of_cons in Hin as [Heq|Hin].
        -- inversion Heq; subst. congruence.
        -- eauto.
    + split; [|done]. intros _. exists key, v. split; [by left|].
      intros ->. by rewrite Bool.eqb_reflx in E.
Qed.

Lemma getattr_flag_fields (model : SdModel float_t) :
  getattr_flag model "is_sdxl" = default false (is_sdxl model) /\
  getattr_flag model "is_sd2" = default false (is_sd2 model) /\
  getattr_flag model "is_sd1" = default false (is_sd1 model) /\
  getattr_flag model "is_ssd" = default false (is_ssd model).
Proof. repeat split; reflexivity. Qed.

Lemma type_changed_fields (items : model_type) (model : SdModel float_t) :
  items.*1 = flag_keys ->
  type_changed items model = true <->
  (exists v, ("is_sdxl", v) ∈ items /\ v <> default false (is_sdxl model)) \/
  (exists v, ("is_sd2", v) ∈ items /\ v <> default false (is_sd2 model)) \/
  (exists v, ("is_sd1", v) ∈ items /\ v <> default false (is_sd1 model)) \/
  (exists v, ("is_ssd", v) ∈ items /\ v <> default false (is_ssd model)).
Proof.
  intros Hkeys. rewrite type_changed_true.
  destruct (getattr_flag_fields model) as (Hxl & H2 & H1 & Hssd).
  split.
  - intros (key & v & Hin & Hne).
    assert (key ∈ flag_keys) as Hkey.
    { rewrite <- Hkeys. apply list_elem_of_fmap. by exists (key, v). }
    unfold flag_keys in Hkey.
    apply elem_of_cons in Hkey as [-> | Hkey]; [left; exists v; by rewrite <- Hxl|].
    apply elem_of_cons in Hkey as [-> | Hkey];
      [right; left; exists v; by rewrite <- H2|].
    apply elem_of_cons in Hkey as [-> | Hkey];
      [right; right; left; exists v; by rewrite <- H1|].
    apply elem_of_cons in Hkey as [-> | Hkey];
      [right; right; right; exists v; by rewrite <- Hssd|].
    by apply not_elem_of_nil in Hkey.
  - intros [(v & Hin & Hne)|[(v & Hin & Hne)|[(v & Hin & Hne)|(v & Hin & Hne)]]].
    + exists "is_sdxl", v. by rewrite Hxl.
    + exists "is_sd2", v. by rewrite H2.
    + exists "is_sd1", v. by rewrite H1.
    + exists "is_ssd", v. by rewrite Hssd.
Qed.

(** C2. [need_compile(model)] answers true exactly when the stored
    signature is empty or the stored value of one of the four family flags
    differs from the model's attribute [is_sdxl], [is_sd2], [is_sd1] or
    [is_ssd] (False where the model has no such attribute). A true answer
    stores the model's four flags, a false answer leaves the stored
    signature as it was. The stored signature, when there is one, has the
    four family keys (it was written by [need_compile] itself), and keeps
    them. *)
Theorem need_compile_spec (model : SdModel float_t) (s : State float_t) :
  (forall items, current_type s = Some items -> items.*1 = flag_keys) ->
  exists b s',
    need_compile model s = (Ok b, s') /\
    (b = true <->
       current_type s = None \/
       exists last,
         current_type s = Some last /\
         ((exists v, ("is_sdxl", v) ∈ last /\ v <> default false (is_sdxl model)) \/
          (exists v, ("is_sd2", v) ∈ last /\ v <> default false (is_sd2 model)) \/
          (exists v, ("is_sd1", v) ∈ last /\ v <> default false (is_sd1 model)) \/
          (exists v, ("is_ssd", v) ∈ last /\ v <> default false (is_ssd model)))) /\
    (b = true ->
     current_type s'
     = Some [ ("is_sdxl", default false (is_sdxl model));
              ("is_sd2", default false (is_sd2 model));
              ("is_sd1", default false (is_sd1 model));
              ("is_ssd", default false (is_ssd model)) ]) /\
    (b = false -> current_type s' = current_type s) /\
    (forall items, current_type s' = Some items -> items.*1 = flag_keys).
Proof.
  intros Hkeys.
  assert (Hstored : get_model_type model
                    = [ ("is_sdxl", default false (is_sdxl model));
                        ("is_sd2", default false (is_sd2 model));
                        ("is_sd1", default false (is_sd1 model));
                        ("is_ssd", default false (is_ssd model)) ]) by reflexivity.
  unfold need_compile.
  destruct (current_type s) as [items|] eqn:Hcur.
  - pose proof (type_changed_fields items model (Hkeys items eq_refl)) as Hiff.
    destruct (type_changed items model) eqn:Hch.
    + eexists true, _. split; [reflexivity|].
      split; [|split; [|split]].
      * split; [|done]. intros _. right. exists items. split; [done|].
        by apply Hiff.
      * intros _. simpl. by rewrite Hstored.
      * done.
      * simpl. intros items' [= <-]. apply get_model_type_keys.
    + assert (Hno : ~ (Some items = None \/
                 exists last,
                   Some items = Some last /\
                   ((exists v, ("is_sdxl", v) ∈ last /\ v <> default false (is_sdxl model)) \/
                    (exists v, ("is_sd2", v) ∈ last /\ v <> default false (is_sd2 model)) \/
                    (exists v, ("is_sd1", v) ∈ last /\ v <> default false (is_sd1 model)) \/
                    (exists v, ("is_ssd", v) ∈ last /\ v <> default false (is_ssd model))))).
      { intros [Hn|(last & [= <-] & Hdiff)]; [done|].
        apply Hiff in Hdiff. done. }
      destruct (parse_boolean_from_env _ _ _);
        eexists false, _; (split; [reflexivity|]); simpl; rewrite ?Hcur;
        (split; [split; [done|intros Hd; by destruct (Hno Hd)]|]);
        (split; [done|]); (split; [done|]); exact Hkeys.
  - eexists true, _. split; [reflexivity|].
    split; [split; auto|]. split; [intros _; simpl; by rewrite Hstored|].
    split; [done|].
    simpl. intros items' [= <-]. apply get_model_type_keys.
Qed.

(** ** The calibration file *)

#[local] Arguments render_row : simpl never.

Lemma field_inv (x : string) :
  field x = true ->
  x <> EmptyString /\ all_chars (fun c => negb (is_space c)) x = true.
Proof.
  unfold field. intros [Hne Hall]%andb_prop. split; [|done].
  apply negb_true_iff, bool_decide_eq_false in Hne. done.
Qed.

Lemma field_no_char (sep : ascii) (x : string) :
  is_space sep = true -> field x = true ->
  all_chars (fun c => negb (Ascii.eqb c sep)) x = true.
Proof.
  intros Hsep [_ Hall]%field_inv.
  eapply all_chars_impl; [|exact Hall]. intros c. by apply is_space_not.
Qed.

Lemma render_row_no_newline (name scale zero_point values : string) :
  field name = true -> field scale = true ->
  field zero_point = true -> field values = true ->
  all_chars (fun c => negb (Ascii.eqb c LF))
    (render_row (name, scale, zero_point, values)) = true.
Proof.
  intros Hn Hs Hz Hv. unfold render_row.
  rewrite !all_chars_app.
  rewrite (field_no_char LF name), (field_no_char LF scale),
    (field_no_char LF zero_point), (field_no_char LF values) by done.
  reflexivity.
Qed.

Lemma render_row_not_empty (name scale zero_point values : string) :
  field name = true ->
  render_row (name, scale, zero_point, values) <> EmptyString.
Proof.
  intros [Hne _]%field_inv. unfold render_row. by destruct name.
Qed.

Lemma strip_row (name scale zero_point values tail : string) :
  field name = true -> field values = true ->
  tail = EmptyString \/ tail = String LF EmptyString ->
  strip (render_row (name, scale, zero_point, values) +:+ tail)
  = render_row (name, scale, zero_point, values).
Proof.
  intros [Hne Hn]%field_inv [Hve Hv]%field_inv Htail.
  unfold strip.
  assert (lstrip (render_row (name, scale, zero_point, values) +:+ tail)
          = render_row (name, scale, zero_point, values) +:+ tail) as ->.
  { unfold render_row. destruct name as [|c name]; [done|].
    simpl in Hn. apply andb_prop in Hn as [Hc _]. apply negb_true_iff in Hc.
    rewrite !app_cons. simpl. by rewrite Hc. }
  assert (rstrip (render_row (name, scale, zero_point, values) +:+ tail)
          = rstrip (render_row (name, scale, zero_point, values))) as ->.
  { destruct Htail as [-> | ->]; [by rewrite app_empty_r|apply rstrip_newline]. }
  unfold render_row.
  rewrite <- !app_assoc_str.
  rewrite rstrip_app; rewrite (rstrip_no_space values Hv); done.
Qed.

Lemma split_row (name scale zero_point values : string) :
  field name = true -> field scale = true ->
  field zero_point = true -> field values = true ->
  split " " (render_row (name, scale, zero_point, values))
  = [name; scale; zero_point; values].
Proof.
  intros Hn Hs Hz Hv. unfold render_row.
  assert (Hsp : forall x, " " +:+ x = String " "%char x) by done.
  rewrite !Hsp.
  rewrite (split_item " " name), (split_item " " scale),
    (split_item " " zero_point), (split_single " " values)
    by (by apply field_no_char).
  done.
Qed.

Lemma calibrate_line_row (row : calibration_row)
    (entry : string * calibrate_entry float_t) (tail : string) :
  row_entry row entry ->
  tail = EmptyString \/ tail = String LF EmptyString ->
  calibrate_line (render_row row +:+ tail) = Ok entry.
Proof.
  destruct row as [[[name scale] zero_point] values].
  destruct entry as [ename [[escale ezero] evalues]].
  intros (Hn & Hs & Hz & Hv & Hname & Hscale & Hzero & Hvalues) Htail.
  simpl in Hname, Hscale, Hzero, Hvalues. subst ename.
  unfold calibrate_line. rewrite strip_row by done.
  rewrite split_row by done. simpl.
  rewrite Hscale. simpl. rewrite Hzero. simpl. rewrite Hvalues. done.
Qed.

Lemma calibrate_lines_rows (rows : list calibration_row)
    (entries : list (string * calibrate_entry float_t)) (final_newline : bool)
    (calibrate_info : gmap string (calibrate_entry float_t)) :
  Forall2 row_entry rows entries ->
  calibrate_lines (readlines (render_file rows final_newline)) calibrate_info
  = Ok (foldl (fun m e => <[e.1 := e.2]> m) calibrate_info entries).
Proof.
  intros Hall. revert calibrate_info.
  induction Hall as [|row entry rest entries' Hrow Hrest IH]; intros m; [done|].
  assert (Hfields : exists name scale zero_point values,
             row = (name, scale, zero_point, values) /\ field name = true /\
             field scale = true /\ field zero_point = true /\ field values = true).
  { destruct row as [[[name scale] zero_point] values].
    destruct Hrow as (? & ? & ? & ? & _). by exists name, scale, zero_point, values. }
  destruct Hfields as (name & scale & zero_point & values & -> & Hn & Hs & Hz & Hv).
  pose proof (render_row_no_newline _ _ _ _ Hn Hs Hz Hv) as Hnl.
  simpl render_file. destruct rest as [|row2 rest].
  - inversion Hrest; subst. destruct final_newline.
    + rewrite readlines_line by done. simpl readlines. simpl calibrate_lines.
      rewrite (calibrate_line_row _ entry) by auto. by destruct entry.
    + rewrite app_empty_r.
      rewrite readlines_last by (by try apply render_row_not_empty).
      simpl calibrate_lines.
      rewrite <- (app_empty_r (render_row _)).
      rewrite (calibrate_line_row _ entry) by auto. by destruct entry.
  - rewrite readlines_line by done. simpl calibrate_lines.
    rewrite (calibrate_line_row _ entry) by auto.
    destruct entry as [ename e]. simpl. apply IH.
Qed.

Lemma foldl_insert_other {V} (entries : list (string * V)) (m : gmap string V)
    (name : string) :
  name ∉ entries.*1 ->
  foldl (fun m e => <[e.1 := e.2]> m) m entries !! name = m !! name.
Proof.
  revert m. induction entries as [|[k v] rest IH]; intros m Hnot; [done|].
  simpl in *. apply not_elem_of_cons in Hnot as [Hne Hnot].
  rewrite IH by done. by rewrite lookup_insert_ne.
Qed.

Lemma foldl_insert_last {V} (entries : list (string * V)) (m : gmap string V)
    (i : nat) (name : string) (v : V) :
  entries !! i = Some (name, v) ->
  name ∉ (drop (S i) entries).*1 ->
  foldl (fun m e => <[e.1 := e.2]> m) m entries !! name = Some v.
Proof.
  revert m i. induction entries as [|[k w] rest IH]; intros m i Hi Hnot; [done|].
  destruct i as [|i]; simpl in *.
  - injection Hi as -> ->. rewrite drop_0 in Hnot.
    rewrite foldl_insert_other by done. apply lookup_insert_eq.
  - by apply (IH _ i).
Qed.


(** C10. When the calibration file named after the selected checkpoint
    does not exist, [get_calibrate_info] returns [None] without raising and
    without any other effect, and [compile_unet] with quantization on goes
    on to call [quantize_model] with [calibrate_info=None] on whatever the
    first half of the function produced. *)
Theorem missing_calibration_file (unet_model : module float_t) (use_graph : bool)
    (s : State float_t) :
  let filename := stem (checkpoint_filename (world s)) +:+ "_sd_calibrate_info.txt" in
  files (world s) !! (parent (checkpoint_filename (world s)), filename) = None ->
  get_calibrate_info filename s = (Ok None, s) /\
  exists s',
    compile_unet unet_model true use_graph s =
      (Ok (quantize_model
             match class_of unet_model with
             | UNetModelLDM => compile_ldm_unet unet_model use_graph
             | UNetModelSGM => compile_sgm_unet unet_model use_graph
             | OtherClass _ => unet_model
             end false None), s') /\
    world s' = world s.
Proof.
  intros filename Hnone. split.
  - unfold get_calibrate_info. by rewrite Hnone.
  - unfold compile_unet, bind, modify, gets, ret.
    destruct (class_of unet_model); simpl;
      unfold get_calibrate_info; simpl; fold filename; rewrite Hnone;
      eexists; split; reflexivity.
Qed.

(** C6 (amended). For a module that is neither an LDM nor an SGM
    [UNetModel], [compile_unet] with quantization off does not raise: it
    issues the warning and returns the module it was given. With
    quantization on it issues the same warning and hands that module,
    uncompiled, to [quantize_model], whose result it returns. *)
Theorem compile_unet_unsupported (unet_model : module float_t) (use_graph : bool)
    (s : State float_t) :
  class_of unet_model <> UNetModelLDM ->
  class_of unet_model <> UNetModelSGM ->
  let warned :=
    emit (WarnUnsupportedModelType (class_of unet_model))
      (emit (CallCompileUnet unet_model false) s) in
  let warned_q :=
    emit (WarnUnsupportedModelType (class_of unet_model))
      (emit (CallCompileUnet unet_model true) s) in
  compile_unet unet_model false use_graph s = (Ok unet_model, warned) /\
  forall calibrate_info s',
    get_calibrate_info
      (stem (checkpoint_filename (world s)) +:+ "_sd_calibrate_info.txt") warned_q
      = (Ok calibrate_info, s') ->
    compile_unet unet_model true use_graph s =
      (Ok (quantize_model unet_model false calibrate_info), s').
Proof.
  intros Hldm Hsgm. unfold compile_unet, bind, modify, gets, ret.
  destruct (class_of unet_model) eqn:Hc; try done. simpl. split; [done|].
  intros info s' Hget. simpl in Hget. by rewrite Hget.
Qed.

(** ** Frame properties of [run] *)

Lemma compile_calls_app (l1 l2 : list (event float_t)) :
  compile_calls (l1 ++ l2) = (compile_calls l1 + compile_calls l2)%nat.
Proof. induction l1 as [|e l1 IH]; simpl; [done|]. rewrite IH. lia. Qed.

Lemma compile_calls_emit (e : event float_t) (s : State float_t) :
  compile_calls (log (emit e s))
  = (compile_calls (log s) + if is_compile_call e then 1 else 0)%nat.
Proof. simpl. rewrite compile_calls_app. simpl. lia. Qed.

Lemma get_calibrate_info_frame (filename : string) (s : State float_t) :
  same_world s (get_calibrate_info filename s).2 /\
  same_cache s (get_calibrate_info filename s).2 /\
  current_type (get_calibrate_info filename s).2 = current_type s.
Proof.
  unfold get_calibrate_info, same_world, same_cache.
  destruct (files _ !! _); [|done].
  destruct (calibrate_lines _ _); simpl; rewrite compile_calls_app; simpl;
    repeat split; lia.
Qed.

Lemma compile_unet_frame (unet_model : module float_t) (q ug : bool)
    (s : State float_t) :
  same_world s (compile_unet unet_model q ug s).2 /\
  compiled_unet (compile_unet unet_model q ug s).2 = compiled_unet s /\
  compiled_ckpt_name (compile_unet unet_model q ug s).2 = compiled_ckpt_name s /\
  current_type (compile_unet unet_model q ug s).2 = current_type s /\
  compile_calls (log (compile_unet unet_model q ug s).2) = S (compile_calls (log s)).
Proof.
  unfold compile_unet, bind, modify, gets, ret, same_world.
  destruct q.
  - destruct (class_of unet_model); simpl;
      match goal with
      | |- context [get_calibrate_info ?f ?s1] =>
          pose proof (get_calibrate_info_frame f s1) as (Hw & (Hc & Hn & Hl) & Ht);
          unfold same_world in Hw;
          destruct (get_calibrate_info f s1) as [[info|e] s2]
      end; simpl in *; rewrite Hw, Hc, Hn, Ht, Hl, ?compile_calls_app; simpl;
      repeat split; lia.
  - destruct (class_of unet_model); simpl; rewrite ?compile_calls_app; simpl;
      repeat split; lia.
Qed.

Lemma need_compile_frame (model : SdModel float_t) (s : State float_t) :
  same_world s (need_compile model s).2 /\ same_cache s (need_compile model s).2.
Proof.
  unfold need_compile, same_world, same_cache.
  destruct (match current_type s with None => true | Some i => type_changed i model end);
    [done|].
  destruct (parse_boolean_from_env _ _ _); simpl; [|done].
  rewrite compile_calls_app. simpl. repeat split; lia.
Qed.

Lemma need_compile_ok (model : SdModel float_t) (s : State float_t) :
  exists b s', need_compile model s = (Ok b, s').
Proof.
  unfold need_compile.
  destruct (match current_type s with None => true | Some i => type_changed i model end);
    [by eexists _, _|].
  destruct (parse_boolean_from_env _ _ _); by eexists _, _.
Qed.

Lemma run_condition_spec (quantization : bool) (ckpt_name : string)
    (s : State float_t) :
  exists b s1,
    run_condition quantization ckpt_name s = (Ok b, s1) /\
    same_world s s1 /\ same_cache s s1 /\
    (b = true <->
       (quantization = true /\ compiled_ckpt_name s <> Some ckpt_name) \/
       (need_compile (sd_model (world s)) s).1 = Ok true).
Proof.
  unfold run_condition.
  destruct (need_compile_ok (sd_model (world s)) s) as (b & s1 & Hneed).
  pose proof (need_compile_frame (sd_model (world s)) s) as [Hw Hc].
  rewrite Hneed in *. simpl in *.
  destruct quantization; simpl.
  - case_bool_decide as Hkey.
    + exists true, s. repeat split; try done. intros _. left. split; [done|].
      congruence.
    + exists b, s1. repeat split; try apply Hc; try done.
      * intros ->. by right.
      * intros [[_ Hne]|[= ->]]; [|done].
        exfalso. apply Hne. apply dec_stable. congruence.
  - exists b, s1. repeat split; try apply Hc; try done.
    + intros ->. by right.
    + intros [[? _]|[= ->]]; done.
Qed.

Lemma run_compile_spec (quantization : bool) (s : State float_t)
    (unet : module float_t) :
  compiled_unet s = Bound unet ->
  exists b s1,
    run_condition quantization (request_key quantization (world s)) s = (Ok b, s1) /\
    same_world s (run_compile quantization s).2 /\
    (b = true ->
       compile_calls (log (run_compile quantization s).2) = S (compile_calls (log s))) /\
    (b = false ->
       run_compile quantization s
       = (Ok tt, emit (InfoSkipCompile (sd_model_checkpoint (world s)) (current_type s1)) s1)).
Proof.
  intros Hbound.
  destruct (run_condition_spec quantization (request_key quantization (world s)) s)
    as (b & s1 & Hcond & Hw & (Hu & Hn & Hl) & _).
  exists b, s1. split; [done|].
  unfold run_compile, bind, gets. fold (request_key quantization (world s)).
  rewrite Hcond. unfold same_world in *. destruct b.
  - unfold del_compiled_unet. rewrite Hu, Hbound. unfold torch_gc, modify.
    match goal with
    | |- context [compile_unet ?m ?q ?g ?s2] =>
        pose proof (compile_unet_frame m q g s2) as (Hw2 & _ & _ & _ & Hl2);
        unfold same_world in Hw2;
        destruct (compile_unet m q g s2) as [[u|e] s3]
    end; simpl in *; rewrite ?compile_calls_app in *; simpl in *.
    + repeat split; try congruence; try done. intros _. lia.
    + repeat split; try congruence; try done. intros _. lia.
  - simpl. rewrite Hw. repeat split; done.
Qed.

Lemma run_process_spec (p : params) (s : State float_t) (unet : module float_t)
    (r : result (option Processed)) (w2 : World float_t) :
  compiled_unet s = Bound unet ->
  run_inner p (set_diffusion_model unet (world s)) = (r, w2) ->
  run_process p s
  = (match r with
     | Ok (Some v) => Ok v
     | Ok None => Raise (UnboundLocalError "proc")
     | Raise e => Raise e
     end,
     set_world (set_diffusion_model (diffusion_model (sd_model (world s))) w2) s).
Proof.
  intros Hbound Hinner.
  unfold run_process, bind, with_, UnetCompileCtx, in_world. simpl.
  rewrite Hbound. simpl. rewrite Hinner.
  destruct r as [[v|]|e]; reflexivity.
Qed.

Lemma run_process_unbound (p : params) (s : State float_t) :
  compiled_unet s = Unbound ->
  run_process p s = (Raise (NameError "compiled_unet"), s).
Proof.
  intros Hun. unfold run_process, bind, with_, UnetCompileCtx. simpl.
  by rewrite Hun.
Qed.

Lemma run_process_frame (p : params) (s : State float_t) :
  same_cache s (run_process p s).2 /\
  diffusion_model (sd_model (world (run_process p s).2))
  = diffusion_model (sd_model (world s)).
Proof.
  destruct (compiled_unet s) as [|unet] eqn:Hu.
  - rewrite run_process_unbound by done. done.
  - destruct (run_inner p (set_diffusion_model unet (world s))) as [r w2] eqn:Hinner.
    rewrite (run_process_spec p s unet r w2) by done. done.
Qed.

(** An exception of [process_images] passes the three inner managers
    when none of them suppresses or replaces it. *)
Lemma run_inner_raises (p : params) (e : exn) (w : World float_t) :
  lets_through VaeCompileCtx -> lets_through SD21CompileCtx ->
  lets_through HijackLoraActivate ->
  (forall w', (process_images p w').1 = Raise e) ->
  (run_inner p w).1 = Raise e.
Proof.
  intros [Hv1 Hv2] [Hs1 Hs2] [Hl1 Hl2] Hraise.
  unfold run_inner, with_, bind.
  destruct (Hv1 w) as (sv & w1 & ->).
  destruct (Hs1 w1) as (ss & w2 & ->).
  destruct (Hl1 w2) as (sl & w3 & ->).
  specialize (Hraise w3). destruct (process_images p w3) as [r w4].
  simpl in Hraise. subst r.
  destruct (Hl2 sl e w4) as (w5 & ->).
  destruct (Hs2 ss e w5) as (w6 & ->).
  destruct (Hv2 sv e w6) as (w7 & ->). done.
Qed.


(** C8. The diffusion model the host holds is the same after [run] as
    before it, whatever happens in between. When the [with] statement is
    reached, the block inside [UnetCompileCtx] (the three inner managers
    around [process_images]) runs with the compiled UNet in its place, and
    what that block does is what [run] does: its value is returned and its
    exception is raised to the caller, in both cases with the original
    diffusion model put back. In particular, with inner managers that let
    exceptions through, an exception of [process_images] is the exception
    [run] raises. *)
Theorem run_scoped_substitution (p : params) (quantization : bool)
    (s : State float_t) :
  diffusion_model (sd_model (world (run p quantization s).2))
  = diffusion_model (sd_model (world s)) /\
  (forall s1 unet r w2,
      run_compile quantization s = (Ok tt, s1) ->
      compiled_unet s1 = Bound unet ->
      run_inner p (set_diffusion_model unet (world s1)) = (r, w2) ->
      run p quantization s
      = (match r with
         | Ok (Some v) => Ok v
         | Ok None => Raise (UnboundLocalError "proc")
         | Raise e => Raise e
         end,
         set_world (set_diffusion_model (diffusion_model (sd_model (world s))) w2) s1)) /\
  (forall s1 unet e,
      run_compile quantization s = (Ok tt, s1) ->
      compiled_unet s1 = Bound unet ->
      lets_through VaeCompileCtx -> lets_through SD21CompileCtx ->
      lets_through HijackLoraActivate ->
      (forall w, (process_images p w).1 = Raise e) ->
      (run p quantization s).1 = Raise e).
Proof.
  assert (Hworld : world (run_compile quantization s).2 = world s).
  { destruct (compiled_unet s) as [|unet] eqn:Hu.
    - unfold run_compile, bind, gets.
      destruct (run_condition_spec quantization
                  (request_key quantization (world s)) s)
        as (b & s1 & Hcond & Hw & (Hu1 & _) & _).
      fold (request_key quantization (world s)). rewrite Hcond.
      destruct b; simpl; [|exact Hw].
      unfold del_compiled_unet. rewrite Hu1, Hu. exact Hw.
    - by destruct (run_compile_spec quantization s unet Hu) as (_ & _ & _ & Hw & _). }
  assert (Hsame : forall s1 unet r w2,
    run_compile quantization s = (Ok tt, s1) ->
    compiled_unet s1 = Bound unet ->
    run_inner p (set_diffusion_model unet (world s1)) = (r, w2) ->
    run p quantization s
    = (match r with
       | Ok (Some v) => Ok v
       | Ok None => Raise (UnboundLocalError "proc")
       | Raise e => Raise e
       end,
       set_world (set_diffusion_model (diffusion_model (sd_model (world s))) w2) s1)).
  { intros s1 unet r w2 Hcompile Hbound Hinner.
    unfold run, bind. rewrite Hcompile.
    rewrite (run_process_spec p s1 unet r w2) by done.
    rewrite Hcompile in Hworld. simpl in Hworld. by rewrite Hworld. }
  split; [|split].
  - unfold run, bind.
    destruct (run_compile quantization s) as [[[]|e] s1]; simpl in *.
    + destruct (run_process_frame p s1) as [_ ->]. by rewrite Hworld.
    + by rewrite Hworld.
  - exact Hsame.
  - intros s1 unet e Hcompile Hbound Hv Hs Hl Hraise.
    pose proof (run_inner_raises p e (set_diffusion_model unet (world s1))
                  Hv Hs Hl Hraise) as Hinner.
    destruct (run_inner p (set_diffusion_model unet (world s1))) as [r w2] eqn:Hr.
    simpl in Hinner. subst r.
    by rewrite (Hsame s1 unet (Raise e) w2 Hcompile Hbound Hr).
Qed.

End WebuiProps.

Section WebuiExamples.
Import Webui Samples.
#[local] Existing Instance sample_host.

(** C2, at a stored SD1 signature and an SDXL model: the answer is true
    and the SDXL flags are stored. *)
Lemma need_compile_spec_witness :
  let model : SdModel F :=
    {| is_sdxl := Some true; is_sd2 := None; is_sd1 := Some false;
       is_ssd := None; diffusion_model := unet_b |} in
  let s := set_current_type (Some (get_model_type (sd1_model unet_a)))
             (fresh (sample_world "sd15" unet_a ∅)) in
  (need_compile model s).1 = Ok true /\
  current_type (need_compile model s).2
  = Some [("is_sdxl", true); ("is_sd2", false); ("is_sd1", false); ("is_ssd", false)].
Proof.
  intros model s.
  destruct (need_compile_spec model s) as (b & s' & Hrun & Hiff & Hstore & _).
  - intros items [= <-]. reflexivity.
  - assert (b = true) as ->.
    { apply Hiff. right. eexists. split; [reflexivity|].
      left. exists false. split; [|discriminate].
      apply elem_of_cons. by left. }
    rewrite Hrun. simpl. split; [done|]. by apply Hstore.
Defined.


(** A line that is not a row makes [get_calibrate_info] raise: an empty
    line has no second item, and a scale that is not a number is rejected
    by [float]. *)
Example calibrate_line_malformed :
  calibrate_line EmptyString = Raise IndexError /\
  calibrate_line "conv1 0.5" = Raise IndexError /\
  is_ok (calibrate_line "conv1 x 3 1.0") = false /\
  is_ok (calibrate_line "conv1 0.5 3.5 1.0") = false.
Proof. repeat split; reflexivity. Qed.

(** C10, at a checkpoint directory without any calibration file. *)
Lemma missing_calibration_file_witness :
  let s := fresh (sample_world "sd15" unet_a ∅) in
  get_calibrate_info "sd15_sd_calibrate_info.txt" s = (Ok None, s) /\
  exists s',
    compile_unet unet_a true true s =
      (Ok (quantize_model (compile_ldm_unet unet_a true) false None), s') /\
    world s' = world s.
Proof.
  intros s. apply (missing_calibration_file unet_a true s). reflexivity.
Defined.

(** C6 as stated fails: with quantization on, an unsupported module is
    not returned as it is but wrapped by [quantize_model]. *)
Lemma compile_unet_unsupported_quantized :
  class_of vae <> UNetModelLDM /\
  class_of vae <> UNetModelSGM /\
  (compile_unet vae true true (fresh (sample_world "sd15" vae ∅))).1
    = Ok (quantize_model vae false None) /\
  (compile_unet vae true true (fresh (sample_world "sd15" vae ∅))).1 <> Ok vae.
Proof. repeat split; try done. Qed.

(** C6 (amended), at the VAE. *)
Lemma compile_unet_unsupported_witness :
  let s := fresh (sample_world "sd15" vae ∅) in
  compile_unet vae false true s =
    (Ok vae, emit (WarnUnsupportedModelType (class_of vae))
               (emit (CallCompileUnet vae false) s)) /\
  forall calibrate_info s',
    get_calibrate_info
      (stem (checkpoint_filename (world s)) +:+ "_sd_calibrate_info.txt")
      (emit (WarnUnsupportedModelType (class_of vae))
         (emit (CallCompileUnet vae true) s))
      = (Ok calibrate_info, s') ->
    compile_unet vae true true s =
      (Ok (quantize_model vae false calibrate_info), s').
Proof.
  intros s. apply (compile_unet_unsupported vae true s); discriminate.
Defined.


(** The other half of C1 also fails on the code, by the short circuit of
    [or]: a first request with quantization compiles without calling
    [need_compile], the stored signature stays empty, and the same request
    again compiles a second time. *)
Example run_quantized_again_recompiles :
  current_type quantized_again = None /\
  compiled_ckpt_name quantized_again = Some "a_quantized" /\
  compile_calls (log quantized_again) = 1%nat /\
  compile_calls (log (run (H := sample_host) true true quantized_again).2) = 2%nat.
Proof. repeat split; reflexivity. Qed.


(** C8, at a request whose [process_images] fails: the failure reaches the
    caller and the host's diffusion model is the original one again. *)
Lemma run_scoped_substitution_witness :
  (run (H := sample_host) false false first_request).1 = Raise (HostError "process_images failed") /\
  diffusion_model (sd_model (world (run (H := sample_host) false false first_request).2)) = unet_a.
Proof.
  destruct (run_scoped_substitution (H := sample_host) false false first_request)
    as (Hrestore & Hsame & _).
  split; [|exact Hrestore].
  pose (s1 := (run_compile (H := sample_host) false first_request).2).
  pose (unet := compile_ldm_unet unet_a true).
  pose (inner := run_inner (H := sample_host) false
                   (set_diffusion_model unet (world s1))).
  rewrite (Hsame s1 unet inner.1 inner.2); [reflexivity|..];
    vm_compute; reflexivity.
Defined.

End WebuiExamples.

(* ===================================================================== *)
(** * Properties of infer_compiler/oneflow/deployable_module.py *)
(* ===================================================================== *)

Section DeployableProps.
Import Deployable.
Context `{Backend}.

#[local] Abbreviation Wrapper := (Wrapper device to_args).
#[local] Abbreviation Graph := (Graph device).

Lemma get_graph_built (w : Wrapper) (g : Graph) :
  _deployable_module_dpl_graph w = Some g -> get_graph w = (Ok g, w).
Proof. intros Hg. unfold get_graph. by rewrite Hg. Qed.

(** A call of [get_graph] either returns a stored handle, counting it when
    it is new, or raises without a handle being stored, and then raises
    again when called again. *)
Lemma get_graph_cases (w : Wrapper) :
  (exists g w1, get_graph w = (Ok g, w1) /\
                _deployable_module_dpl_graph w1 = Some g /\
                (built w1 <= S (built w))%nat /\
                _deployable_module_options w1 = _deployable_module_options w) \/
  (exists e w1, get_graph w = (Raise e, w1) /\
                built w1 = built w /\
                _deployable_module_options w1 = _deployable_module_options w /\
                get_graph w1 = (Raise e, w1)).
Proof.
  unfold get_graph at 1 2, oneflow_module.
  destruct (_deployable_module_dpl_graph w) as [g|] eqn:Hg.
  - left. exists g, w. repeat split; [done|lia].
  - destruct (_oneflow_module (_deployable_module_model w)) as [om|] eqn:Hom.
    + destruct (get_oneflow_graph om _ _) as [g0|e] eqn:Hbuild.
      * left. eexists _, _. split; [reflexivity|]. simpl. repeat split; lia.
      * right. exists e, w. repeat split.
        unfold get_graph, oneflow_module. by rewrite Hg, Hom, Hbuild.
    + destruct (torch2oflow _) as [om|e] eqn:Hconv.
      * simpl. destruct (get_oneflow_graph om _ _) as [g0|e] eqn:Hbuild.
        -- left. eexists _, _. split; [reflexivity|]. simpl. repeat split; lia.
        -- right. eexists e, _. split; [reflexivity|]. repeat split.
           unfold get_graph, oneflow_module. simpl. by rewrite Hg, Hbuild.
      * right. exists e, w. repeat split.
        unfold get_graph, oneflow_module. by rewrite Hg, Hom, Hconv.
Qed.

Lemma get_graph_none_builds (w w1 : Wrapper) (g : Graph) :
  _deployable_module_dpl_graph w = None ->
  get_graph w = (Ok g, w1) ->
  built w1 = S (built w).
Proof.
  intros Hnone. unfold get_graph, oneflow_module. rewrite Hnone.
  destruct (_oneflow_module (_deployable_module_model w)) as [om|].
  - destruct (get_oneflow_graph om _ _); [|done]. by intros [= _ <-].
  - destruct (torch2oflow _) as [om|]; [|done]. simpl.
    destruct (get_oneflow_graph om _ _); [|done]. by intros [= _ <-].
Qed.

(** C9. Once a handle is stored, [get_graph] returns that very handle and
    changes nothing, and [forward] with [use_graph] on runs that handle and
    changes nothing either: no further graph is built. Two [forward] calls
    in a row build at most one graph, whatever the state they start from. *)
Theorem built_graph_is_reused (w : Wrapper) (args : input) :
  (forall g,
      _deployable_module_dpl_graph w = Some g ->
      get_graph w = (Ok g, w) /\
      (use_graph (_deployable_module_options w) = true ->
       forward args w = (call_graph g args, w))) /\
  (use_graph (_deployable_module_options w) = true ->
   (built (forward args (forward args w).2).2 <= S (built w))%nat).
Proof.
  split.
  - intros g Hg. split; [by apply get_graph_built|].
    intros Huse. unfold forward. by rewrite Huse, (get_graph_built w g Hg).
  - intros Huse.
    assert (Hfwd : forall w0 : Wrapper,
               use_graph (_deployable_module_options w0) = true ->
               (forward args w0).2 = (get_graph w0).2).
    { intros w0 Hu. unfold forward. rewrite Hu.
      by destruct (get_graph w0) as [[g|e] w1]. }
    rewrite (Hfwd w Huse).
    destruct (get_graph_cases w)
      as [(g & w1 & Hget & Hg & Hb & Ho)|(e & w1 & Hget & Hb & Ho & Hagain)];
      rewrite Hget; simpl; (rewrite Hfwd by (by rewrite Ho)).
    + by rewrite (get_graph_built _ g Hg).
    + rewrite Hagain. simpl. lia.
Qed.

(** C5. With a graph handle that has at least one block and whose first
    state tensor is on device [Y], [to] with a target device [X] that
    [check_device] does not accept for [Y] raises [RuntimeError] and leaves
    the wrapper exactly as it was: the dual module is not moved and the
    handle is the same. Without a graph handle, [to] passes its arguments to
    the dual module and returns the wrapper. *)
Theorem to_spec (args : to_args) (w : Wrapper) :
  (forall g X Y,
      _deployable_module_dpl_graph w = Some g ->
      (0 < length (_blocks g))%nat ->
      _state g !! 0%nat = Some Y ->
      parse_device args = Some X ->
      check_device Y X = false ->
      exists msg, to args w = (Raise (RuntimeError msg), w)) /\
  (_deployable_module_dpl_graph w = None ->
   to args w = (Ok tt, model_to args w)).
Proof.
  split.
  - intros g X Y Hg Hblocks Hstate Htarget Hcheck.
    unfold to. rewrite Hg, Htarget.
    apply Nat.ltb_lt in Hblocks. rewrite Hblocks.
    destruct (_state g) as [|d rest]; [done|].
    injection Hstate as ->. rewrite Hcheck. simpl. by eexists.
  - intros Hnone. unfold to. by rewrite Hnone.
Qed.

(** C4 (amended). For a non-empty path [p], [set_graph_file(p)] on a
    wrapper whose graph file already is [p] changes nothing. For any path
    that differs from the current graph file, it stores the path and
    discards the built graph: no handle, the first-run flag set, no
    compiled counterpart in the dual module, so that a [get_graph] that
    returns after it has built a new handle. *)
Theorem set_graph_file_spec (file_path : option string) (w : Wrapper) :
  (truthy file_path = true -> get_graph_file w = file_path ->
   set_graph_file file_path w = w) /\
  (get_graph_file w <> file_path ->
   get_graph_file (set_graph_file file_path w) = file_path /\
   _deployable_module_dpl_graph (set_graph_file file_path w) = None /\
   _load_graph_first_run (set_graph_file file_path w) = true /\
   _oneflow_module (_deployable_module_model (set_graph_file file_path w)) = None /\
   forall g w1,
     get_graph (set_graph_file file_path w) = (Ok g, w1) ->
     built w1 = S (built w)).
Proof.
  unfold set_graph_file. split.
  - intros -> ->. by rewrite bool_decide_eq_true_2.
  - intros Hne. rewrite (bool_decide_eq_false_2 _ Hne), andb_false_r.
    repeat split. intros g w1 Hget.
    apply get_graph_none_builds in Hget; [exact Hget|reflexivity].
Qed.

End DeployableProps.

Section DeployableExamples.
Import Deployable BackendSamples.

(** C9, at a wrapper that has run once. *)
Lemma built_graph_is_reused_witness :
  (exists g, _deployable_module_dpl_graph built_wrapper = Some g /\
             get_graph (H := sample_backend) built_wrapper = (Ok g, built_wrapper) /\
             forward (H := sample_backend) 5%Z built_wrapper = (Ok 6%Z, built_wrapper)) /\
  (built (forward (H := sample_backend) 5%Z
            (forward (H := sample_backend) 5%Z new_wrapper).2).2 <= 1)%nat.
Proof.
  split.
  - destruct (built_graph_is_reused (H := sample_backend) built_wrapper 5%Z) as [Hreuse _].
    eexists. split; [reflexivity|].
    destruct (Hreuse _ eq_refl) as [Hget Hfwd]. split; [exact Hget|].
    rewrite Hfwd; reflexivity.
  - destruct (built_graph_is_reused (H := sample_backend) new_wrapper 5%Z) as [_ Honce].
    apply Honce. reflexivity.
Defined.

(** C5, at a graph on ["cuda:0"] asked to move to ["cpu"], and at a new
    wrapper. *)
Lemma to_spec_witness :
  (exists msg, to (H := sample_backend) (Some "cpu") built_wrapper
               = (Raise (RuntimeError msg), built_wrapper)) /\
  to (H := sample_backend) (Some "cpu") new_wrapper
  = (Ok tt, model_to (H := sample_backend) (Some "cpu") new_wrapper).
Proof.
  destruct (to_spec (H := sample_backend) (Some "cpu") built_wrapper) as [Hraise _].
  destruct (to_spec (H := sample_backend) (Some "cpu") new_wrapper) as [_ Hmove].
  split.
  - eapply (Hraise _ "cpu" "cuda:0"); [reflexivity|simpl; lia|reflexivity..].
  - apply Hmove. reflexivity.
Defined.

(** C4 as stated fails at the empty path: the wrapper's graph file is the
    empty path and its graph is built; setting the same path again discards
    the graph. *)
Lemma set_graph_file_empty_path_invalidates :
  get_graph_file (H := sample_backend) empty_path_wrapper = Some EmptyString /\
  is_Some (_deployable_module_dpl_graph empty_path_wrapper) /\
  _deployable_module_dpl_graph
    (set_graph_file (H := sample_backend) (Some EmptyString) empty_path_wrapper) = None /\
  set_graph_file (H := sample_backend) (Some EmptyString) empty_path_wrapper
    <> empty_path_wrapper.
Proof. repeat split; [by eexists|discriminate]. Qed.

(** C4 (amended), at the path ["/tmp/g1"] set again, and then replaced by
    ["/tmp/g2"]. *)
Lemma set_graph_file_spec_witness :
  set_graph_file (H := sample_backend) (Some "/tmp/g1") g1_wrapper = g1_wrapper /\
  _deployable_module_dpl_graph
    (set_graph_file (H := sample_backend) (Some "/tmp/g2") g1_wrapper) = None.
Proof.
  destruct (set_graph_file_spec (H := sample_backend) (Some "/tmp/g1") g1_wrapper)
    as [Hsame _].
  destruct (set_graph_file_spec (H := sample_backend) (Some "/tmp/g2") g1_wrapper)
    as [_ Hother].
  split.
  - apply Hsame; reflexivity.
  - apply Hother. discriminate.
Defined.

End DeployableExamples.

(* ===================================================================== *)
(** * Properties of infer_compiler/__init__.py *)
(* ===================================================================== *)

Section BridgeProps.
Import Bridge.

Lemma contiguous_idem (t : tensor) : contiguous (contiguous t) = contiguous t.
Proof. reflexivity. Qed.

Lemma contiguous_id (t : tensor) : is_contiguous t = true -> contiguous t = t.
Proof. destruct t as [sh el c]. simpl. by intros ->. Qed.

(** The conversion of the inputs changes the representation only. *)
Lemma to_backend_content (x : value) : content (to_backend x) = content x.
Proof.
  unfold to_backend.
  induction x as [t|t|z|items IH|items IH|items IH] using value_nested_ind;
    simpl; try done.
  - f_equal. induction IH as [|x rest Hx _ IHrest]; simpl; [done|].
    by rewrite Hx, IHrest.
  - f_equal. induction IH as [|x rest Hx _ IHrest]; simpl; [done|].
    by rewrite Hx, IHrest.
  - f_equal. induction IH as [|[k x] rest Hx _ IHrest]; simpl; [done|].
    simpl in Hx. by rewrite Hx, IHrest.
Qed.

Lemma convert_tensors (items : list value) :
  forallb is_torch_tensor items = true ->
  exists converted,
    comprehension to_torch (List.map (map_leaf input_fn) items) = Ok converted /\
    List.map content converted = List.map content items /\
    forallb host_value converted = true /\
    (forallb all_contiguous items = true -> converted = items).
Proof.
  induction items as [|x rest IH]; simpl.
  - intros _. by exists [].
  - intros [Hx Hrest]%andb_prop. destruct x as [t| | | | |]; try done.
    destruct (IH Hrest) as (converted & -> & Hc & Hh & Hsame). simpl.
    exists (TorchTensor (contiguous t) :: converted). simpl.
    rewrite Hc, Hh. repeat split; try done.
    intros [Ht Hr]%andb_prop. by rewrite (contiguous_id t Ht), (Hsame Hr).
Qed.

(** C3 (amended). On every nested value the conversion to the backend
    keeps the structure, the non-tensor leaves and the bits of every tensor.
    Converting back what was converted gives a host value with the same
    content when the value is a host tensor or a tuple of host tensors, and
    gives the value itself when its tensors were contiguous to begin
    with. *)
Theorem round_trip (x : value) :
  content (to_backend x) = content x /\
  (tensor_or_tuple x = true ->
   exists y,
     to_host (to_backend x) = Ok y /\
     content y = content x /\
     host_value y = true /\
     (all_contiguous x = true -> y = x)).
Proof.
  split; [apply to_backend_content|].
  destruct x as [t| | |items| |]; try done; simpl.
  - intros _. exists (TorchTensor (contiguous t)). repeat split.
    intros Ht. by rewrite contiguous_id.
  - intros Hitems. unfold to_host, to_backend. simpl.
    destruct (convert_tensors items Hitems) as (converted & -> & Hc & Hh & Hsame).
    exists (Tuple converted). simpl. rewrite Hc. repeat split; try done.
    intros Hall. by rewrite Hsame.
Qed.

End BridgeProps.

Section BridgeExamples.
Import Bridge BridgeSamples.

(** C3 as stated fails: a scalar, and a list holding a tensor, go to the
    backend unchanged in structure but cannot be converted back. *)
Lemma round_trip_undefined_off_tensors :
  to_host (to_backend (Scalar 7)) <> Ok (Scalar 7) /\
  is_ok (to_host (to_backend (Scalar 7))) = false /\
  to_host (to_backend (PyList [TorchTensor packed])) <> Ok (PyList [TorchTensor packed]) /\
  is_ok (to_host (to_backend (PyList [TorchTensor packed]))) = false.
Proof. repeat split; discriminate. Qed.

(** C3 (amended), at a pair of a strided and a packed tensor. *)
Lemma round_trip_witness :
  let x := Tuple [TorchTensor strided; TorchTensor packed] in
  content (to_backend x) = content x /\
  exists y,
    to_host (to_backend x) = Ok y /\
    content y = content x /\
    host_value y = true /\
    (all_contiguous x = true -> y = x).
Proof.
  intros x. destruct (round_trip x) as [Hcontent Hback].
  split; [exact Hcontent|]. apply Hback. reflexivity.
Defined.

End BridgeExamples.

(* ===================================================================== *)
(** * Further properties of scripts/onediff.py *)
(* ===================================================================== *)

Section WebuiMore.
Import Webui.
Context `{Host}.

#[local] Arguments render_row : simpl never.

(** ** [get_calibrate_info] *)

(** X1. [get_calibrate_info] returns [None] exactly when the file does not
    exist: a file that exists gives a mapping or an exception, and an empty
    file gives the empty mapping. *)
Theorem get_calibrate_info_none_iff (filename : string) (s : State float_t) :
  ((get_calibrate_info filename s).1 = Ok None <->
   files (world s) !! (parent (checkpoint_filename (world s)), filename) = None) /\
  (files (world s) !! (parent (checkpoint_filename (world s)), filename)
     = Some EmptyString ->
   get_calibrate_info filename s
   = (Ok (Some ∅),
      emit (InfoGotCalibrate (parent (checkpoint_filename (world s))) filename) s)).
Proof.
  unfold get_calibrate_info. split.
  - destruct (files _ !! _) as [text|]; [|done].
    destruct (calibrate_lines _ _); simpl; split; done.
  - by intros ->.
Qed.

Lemma render_file_cons (row : calibration_row) (rest : list calibration_row) :
  render_file (row :: rest) true
  = render_row row +:+ String LF (render_file rest true).
Proof. by destruct rest. Qed.

Lemma row_entry_fields (row : calibration_row)
    (entry : string * calibrate_entry float_t) :
  row_entry row entry ->
  all_chars (fun c => negb (Ascii.eqb c LF)) (render_row row) = true.
Proof.
  destruct row as [[[name scale] zero_point] values].
  intros (Hn & Hs & Hz & Hv & _). by apply render_row_no_newline.
Qed.

Lemma readlines_rows (rows : list calibration_row)
    (entries : list (string * calibrate_entry float_t)) (rest : string) :
  Forall2 row_entry rows entries ->
  readlines (render_file rows true +:+ rest)
  = (List.map (fun row => render_row row +:+ String LF EmptyString) rows
     ++ readlines rest)%list.
Proof.
  intros Hall. induction Hall as [|row entry rows' entries' Hrow _ IH]; [done|].
  rewrite render_file_cons, app_assoc_str, app_cons.
  rewrite readlines_line by (by eapply row_entry_fields).
  simpl. by rewrite IH.
Qed.

Lemma calibrate_lines_app (l1 l2 : list string)
    (m : gmap string (calibrate_entry float_t)) :
  calibrate_lines (l1 ++ l2)%list m
  = match calibrate_lines l1 m with
    | Ok m' => calibrate_lines l2 m'
    | Raise e => Raise e
    end.
Proof.
  revert m. induction l1 as [|line l1 IH]; intros m; simpl; [done|].
  destruct (calibrate_line line) as [[name entry]|e]; [apply IH|done].
Qed.

Lemma lstrip_all_space (x : string) :
  all_chars is_space x = true -> lstrip x = EmptyString.
Proof.
  induction x as [|c x IH]; simpl; [done|].
  intros [Hc Hx]%andb_prop. rewrite Hc. by apply IH.
Qed.


(** ** [need_compile] *)

Lemma type_changed_same (model : SdModel float_t) :
  type_changed (get_model_type model) model = false.
Proof. simpl. by rewrite !Bool.eqb_reflx. Qed.

(** X4. Asking [need_compile] again about the same model answers false
    and keeps the stored signature, whatever the first answer was. *)
Theorem need_compile_again (model : SdModel float_t) (s : State float_t) :
  (need_compile model (need_compile model s).2).1 = Ok false /\
  current_type (need_compile model (need_compile model s).2).2
  = current_type (need_compile model s).2.
Proof.
  assert (Hfalse : forall s1 : State float_t,
             match current_type s1 with
             | None => true
             | Some items => type_changed items model
             end = false ->
             (need_compile model s1).1 = Ok false /\
             current_type (need_compile model s1).2 = current_type s1).
  { intros s1 Hs1. unfold need_compile. rewrite Hs1.
    by destruct (parse_boolean_from_env _ _ _). }
  unfold need_compile at 2 4 5.
  destruct (match current_type s with
            | None => true
            | Some items => type_changed items model
            end) eqn:Hfirst.
  - apply Hfalse. simpl. apply type_changed_same.
  - destruct (parse_boolean_from_env _ _ _); apply Hfalse; simpl; exact Hfirst.
Qed.

Lemma getattr_flag_signature (m1 m2 : SdModel float_t) (key : string) :
  get_model_type m1 = get_model_type m2 ->
  getattr_flag m1 key = getattr_flag m2 key.
Proof.
  unfold get_model_type. intros [= Hxl H2 H1 Hssd].
  unfold getattr_flag in *.
  repeat case_decide; subst; simpl in *; done.
Qed.

Lemma type_changed_signature (items : model_type) (m1 m2 : SdModel float_t) :
  get_model_type m1 = get_model_type m2 ->
  type_changed items m1 = type_changed items m2.
Proof.
  intros Hsig. induction items as [|[key v] rest IH]; simpl; [done|].
  by rewrite (getattr_flag_signature m1 m2 key Hsig), IH.
Qed.

(** X5. [need_compile] looks at the four family flags only: two models
    with the same signature get the same answer and leave the same state,
    whatever else differs between them (their UNets, say). *)
Theorem need_compile_signature_only (m1 m2 : SdModel float_t) (s : State float_t) :
  get_model_type m1 = get_model_type m2 ->
  need_compile m1 s = need_compile m2 s.
Proof.
  intros Hsig. unfold need_compile. rewrite Hsig.
  destruct (current_type s) as [items|]; [|done].
  by rewrite (type_changed_signature items m1 m2 Hsig).
Qed.

(** ** [Script.run] *)

Lemma compile_unet_logs (unet_model : module float_t) (q ug : bool)
    (s : State float_t) :
  exists more,
    log (compile_unet unet_model q ug s).2
    = (log s ++ CallCompileUnet unet_model q :: more)%list.
Proof.
  unfold compile_unet, bind, modify, gets, ret.
  destruct q.
  - destruct (class_of unet_model); simpl;
      unfold get_calibrate_info; simpl;
      destruct (files _ !! _) as [text|]; simpl;
      try destruct (calibrate_lines _ _); simpl;
      rewrite <- ?app_assoc; simpl; by eexists.
  - destruct (class_of unet_model); simpl; rewrite <- ?app_assoc; simpl;
      try (by eexists); by exists [].
Qed.

Lemma run_process_script (p : params) (s : State float_t) :
  compiled_unet (run_process p s).2 = compiled_unet s /\
  compiled_ckpt_name (run_process p s).2 = compiled_ckpt_name s /\
  current_type (run_process p s).2 = current_type s /\
  log (run_process p s).2 = log s.
Proof.
  destruct (compiled_unet s) as [|unet] eqn:Hu.
  - rewrite run_process_unbound by done. done.
  - destruct (run_inner p (set_diffusion_model unet (world s))) as [r w2] eqn:Hinner.
    rewrite (run_process_spec p s unet r w2) by done. done.
Qed.

Lemma run_split (p : params) (q : bool) (s : State float_t) :
  run p q s
  = match run_compile q s with
    | (Ok _, s1) => run_process p s1
    | (Raise e, s1) => (Raise e, s1)
    end.
Proof. unfold run, bind. by destruct (run_compile q s) as [[[]|e] s1]. Qed.

(** The three ways [run_compile] can go, by the value of its condition. *)
Lemma run_compile_cases (q : bool) (s : State float_t) :
  exists b s0,
    run_condition q (request_key q (world s)) s = (Ok b, s0) /\
    world s0 = world s /\
    compiled_unet s0 = compiled_unet s /\
    compiled_ckpt_name s0 = compiled_ckpt_name s /\
    ((b = false /\
      run_compile q s
      = (Ok tt, emit (InfoSkipCompile (sd_model_checkpoint (world s)) (current_type s0)) s0))
     \/
     (b = true /\ compiled_unet s = Unbound /\
      run_compile q s = (Raise (NameError "compiled_unet"), s0))
     \/
     (b = true /\ compiled_unet s <> Unbound /\
      let c := compile_unet (diffusion_model (sd_model (world s))) q true
                 (emit TorchGc (set_compiled_unet Unbound s0)) in
      run_compile q s
      = match c.1 with
        | Ok unet =>
            (Ok tt,
             emit TorchGc
               (set_compiled_ckpt_name (Some (request_key q (world s)))
                  (set_compiled_unet (Bound unet) c.2)))
        | Raise e => (Raise e, c.2)
        end)).
Proof.
  destruct (run_condition_spec q (request_key q (world s)) s)
    as (b & s0 & Hcond & Hw & (Hu & Hn & _) & _).
  unfold same_world in Hw.
  exists b, s0. repeat (split; [done|]).
  unfold run_compile, bind, gets. fold (request_key q (world s)). rewrite Hcond.
  destruct b.
  - right. unfold del_compiled_unet. rewrite Hu.
    destruct (compiled_unet s) as [|u] eqn:Hs.
    + left. done.
    + right. repeat (split; [done|]). unfold torch_gc, modify. simpl.
      destruct (compile_unet _ q true _) as [[unet|e] s3]; done.
  - left. done.
Qed.

(** X6. When [run] gets past its compile step with quantization on, the
    recorded key is the request's key, whether it compiled or not. When
    it has compiled, the recorded key is the request's key also without
    quantization, the global holds a module again, and the module that was
    compiled is the diffusion model the host held at the start. *)
Theorem run_compile_records_key (q : bool) (s s1 : State float_t) :
  run_compile q s = (Ok tt, s1) ->
  (q = true -> compiled_ckpt_name s1 = Some (request_key true (world s))) /\
  (compile_calls (log s1) = S (compile_calls (log s)) ->
   compiled_ckpt_name s1 = Some (request_key q (world s)) /\
   (exists unet, compiled_unet s1 = Bound unet) /\
   CallCompileUnet (diffusion_model (sd_model (world s))) q ∈ log s1).
Proof.
  intros Hrun.
  destruct (run_condition_spec q (request_key q (world s)) s)
    as (b' & s0' & Hcond' & _ & (_ & _ & Hl) & Hb).
  destruct (run_compile_cases q s)
    as (b & s0 & Hcond & Hw & Hu & Hn
        & [(-> & Hskip)|[(-> & _ & Hdel)|(-> & Hbound & Hgo)]]);
    rewrite Hcond in Hcond'; injection Hcond' as <- <-.
  - rewrite Hskip in Hrun. injection Hrun as <-. split.
    + intros ->. simpl. rewrite Hn.
      destruct (decide (compiled_ckpt_name s = Some (request_key true (world s))))
        as [Heq|Hne]; [done|].
      assert (false = true) by (apply Hb; left; done). done.
    + simpl. rewrite compile_calls_app. simpl. lia.
  - rewrite Hdel in Hrun. done.
  - simpl in Hgo. rewrite Hgo in Hrun.
    destruct (compile_unet_logs (diffusion_model (sd_model (world s))) q true
                (emit TorchGc (set_compiled_unet Unbound s0))) as (more & Hlog).
    destruct (compile_unet _ q true _) as [[unet|e] s3]; [|done].
    simpl in Hrun, Hlog. injection Hrun as <-. simpl. clear Hb. split.
    + by intros ->.
    + intros _. split; [done|]. split; [by eexists|].
      rewrite Hlog. set_solver.
Qed.

Lemma run_unbound (p : params) (q : bool) (s : State float_t) :
  compiled_unet s = Unbound ->
  (run p q s).1 = Raise (NameError "compiled_unet") /\
  compiled_unet (run p q s).2 = Unbound /\
  compiled_ckpt_name (run p q s).2 = compiled_ckpt_name s /\
  world (run p q s).2 = world s.
Proof.
  intros Hun. rewrite run_split.
  destruct (run_compile_cases q s)
    as (b & s0 & Hcond & Hw & Hu & Hn
        & [(-> & Hskip)|[(-> & _ & Hdel)|(-> & Hbound & _)]]).
  - rewrite Hskip.
    rewrite run_process_unbound by (simpl; congruence).
    simpl. rewrite Hu, Hn, Hw. done.
  - rewrite Hdel. simpl. rewrite Hu, Hn, Hw. done.
  - done.
Qed.

(** X7. Once the global [compiled_unet] is unbound, a request never
    reaches [process_images]: [run] raises [NameError], leaves the host
    untouched and the global unbound, so the next request meets the same
    state. *)
Theorem run_after_del_raises (p : params) (q : bool) (s : State float_t) :
  compiled_unet s = Unbound ->
  run p q s = (Raise (NameError "compiled_unet"), (run p q s).2) /\
  compiled_unet (run p q s).2 = Unbound /\
  world (run p q s).2 = world s.
Proof.
  intros Hun. destruct (run_unbound p q s Hun) as (Hr & Hu & _ & Hw).
  repeat split; try done.
  destruct (run p q s) as [r s']. simpl in *. by subst r.
Qed.

Lemma run_with_compile_unet (p : params) (q : bool) :
  run_with compile_unet p q = run p q /\
  run_compile_with compile_unet q = run_compile q.
Proof. split; reflexivity. Qed.

Lemma compile_unet_keeps_globals : keeps_globals compile_unet.
Proof.
  intros m q ug s.
  by destruct (compile_unet_frame m q ug s) as (_ & Hu & Hn & _).
Qed.

(** The ways [run_compile_with] can go, by the value of its condition. *)
Lemma run_compile_with_cases
    (compile : module float_t -> bool -> bool -> eff (State float_t) (module float_t))
    (q : bool) (s : State float_t) :
  exists b s0,
    run_condition q (request_key q (world s)) s = (Ok b, s0) /\
    world s0 = world s /\
    compiled_unet s0 = compiled_unet s /\
    compiled_ckpt_name s0 = compiled_ckpt_name s /\
    ((b = false /\
      run_compile_with compile q s
      = (Ok tt, emit (InfoSkipCompile (sd_model_checkpoint (world s)) (current_type s0)) s0))
     \/
     (b = true /\ compiled_unet s = Unbound /\
      run_compile_with compile q s = (Raise (NameError "compiled_unet"), s0))
     \/
     (b = true /\ compiled_unet s <> Unbound /\
      let c := compile (diffusion_model (sd_model (world s))) q true
                 (emit TorchGc (set_compiled_unet Unbound s0)) in
      run_compile_with compile q s
      = match c.1 with
        | Ok unet =>
            (Ok tt,
             emit TorchGc
               (set_compiled_ckpt_name (Some (request_key q (world s)))
                  (set_compiled_unet (Bound unet) c.2)))
        | Raise e => (Raise e, c.2)
        end)).
Proof.
  destruct (run_condition_spec q (request_key q (world s)) s)
    as (b & s0 & Hcond & Hw & (Hu & Hn & _) & _).
  unfold same_world in Hw.
  exists b, s0. repeat (split; [done|]).
  unfold run_compile_with, bind, gets. fold (request_key q (world s)). rewrite Hcond.
  destruct b.
  - right. unfold del_compiled_unet. rewrite Hu.
    destruct (compiled_unet s) as [|u] eqn:Hs.
    + left. done.
    + right. repeat (split; [done|]). unfold torch_gc, modify. simpl.
      destruct (compile _ q true _) as [[unet|e] s3]; done.
  - left. done.
Qed.

Lemma run_with_unbound
    (compile : module float_t -> bool -> bool -> eff (State float_t) (module float_t))
    (p : params) (q : bool) (s : State float_t) :
  compiled_unet s = Unbound ->
  (run_with compile p q s).1 = Raise (NameError "compiled_unet").
Proof.
  intros Hun. unfold run_with, bind.
  destruct (run_compile_with_cases compile q s)
    as (b & s0 & Hcond & Hw & Hu & Hn
        & [(-> & Hskip)|[(-> & _ & Hdel)|(-> & Hbound & _)]]).
  - rewrite Hskip. by rewrite run_process_unbound by (simpl; congruence).
  - by rewrite Hdel.
  - done.
Qed.

(** X8. When the compile step inside [run] raises, for whatever reason
    (a compiler that fails, or a calibration file that does not parse),
    [run] raises the same exception, the recorded key keeps its old value,
    and the global [compiled_unet] is left unbound: every later request,
    whatever it asks for, fails with [NameError]. This holds around any
    compile step that does not assign the script's globals, as
    [compile_unet] does not. *)
Theorem run_failed_compile
    (compile : module float_t -> bool -> bool -> eff (State float_t) (module float_t))
    (p : params) (q : bool) (s : State float_t)
    (unet : module float_t) (e : exn) :
  keeps_globals compile ->
  compiled_unet s = Bound unet ->
  (run_compile_with compile q s).1 = Raise e ->
  (run_with compile p q s).1 = Raise e /\
  compiled_unet (run_with compile p q s).2 = Unbound /\
  compiled_ckpt_name (run_with compile p q s).2 = compiled_ckpt_name s /\
  forall p' q' w',
    (run_with compile p' q' (set_world w' (run_with compile p q s).2)).1
    = Raise (NameError "compiled_unet").
Proof.
  intros Hkeeps Hbound Hraise.
  assert (Hstate : compiled_unet (run_compile_with compile q s).2 = Unbound /\
                   compiled_ckpt_name (run_compile_with compile q s).2
                   = compiled_ckpt_name s).
  { destruct (run_compile_with_cases compile q s)
      as (b & s0 & Hcond & Hw & Hu & Hn
          & [(-> & Hskip)|[(-> & Hdel & _)|(-> & _ & Hgo)]]).
    - by rewrite Hskip in Hraise.
    - congruence.
    - simpl in Hgo. rewrite Hgo in *.
      destruct (Hkeeps (diffusion_model (sd_model (world s))) q true
                  (emit TorchGc (set_compiled_unet Unbound s0))) as [Hcu Hcn].
      destruct (compile _ q true _) as [[u|e'] s3]; [done|].
      simpl in *. by rewrite Hcu, Hcn. }
  destruct Hstate as (Hu & Hn).
  assert (Hrun : run_with compile p q s = (Raise e, (run_compile_with compile q s).2)).
  { unfold run_with, bind.
    destruct (run_compile_with compile q s) as [[[]|e'] s1]; [done|].
    simpl in *. congruence. }
  rewrite Hrun. simpl. repeat split; try done.
  intros p' q' w'. by apply run_with_unbound.
Qed.

Lemma run_current_type (p : params) (q : bool) (s : State float_t) :
  current_type (run p q s).2
  = current_type (run_condition q (request_key q (world s)) s).2.
Proof.
  rewrite run_split.
  destruct (run_compile_cases q s)
    as (b & s0 & Hcond & Hw & Hu & Hn
        & [(-> & Hskip)|[(-> & _ & Hdel)|(-> & _ & Hgo)]]); rewrite Hcond.
  - rewrite Hskip. by destruct (run_process_script p
      (emit (InfoSkipCompile (sd_model_checkpoint (world s)) (current_type s0)) s0))
      as (_ & _ & -> & _).
  - by rewrite Hdel.
  - simpl in Hgo. rewrite Hgo.
    pose proof (compile_unet_frame (diffusion_model (sd_model (world s))) q true
                  (emit TorchGc (set_compiled_unet Unbound s0)))
      as (_ & _ & _ & Ht & _).
    destruct (compile_unet _ q true _) as [[u|e'] s3]; simpl in *; [|done].
    by destruct (run_process_script p
      (emit TorchGc
         (set_compiled_ckpt_name (Some (request_key q (world s)))
            (set_compiled_unet (Bound u) s3)))) as (_ & _ & -> & _).
Qed.

(** X9. The stored model-type signature is written by the requests that
    consult [need_compile], and by no other: a request with quantization
    whose key differs from the recorded one leaves the signature as it
    was (empty, if it was empty), while after any other request a
    signature is stored. *)
Theorem run_signature_bookkeeping (p : params) (q : bool) (s : State float_t) :
  (q = true -> compiled_ckpt_name s <> Some (request_key true (world s)) ->
   current_type (run p q s).2 = current_type s) /\
  (q = false \/ compiled_ckpt_name s = Some (request_key q (world s)) ->
   current_type (run p q s).2 <> None).
Proof.
  rewrite run_current_type. unfold run_condition. split.
  - intros -> Hne. simpl.
    rewrite bool_decide_eq_true_2 by (intros Heq; by apply Hne). done.
  - intros Hnot.
    assert (q && bool_decide (Some (request_key q (world s)) <> compiled_ckpt_name s)
            = false) as ->.
    { destruct Hnot as [-> | Heq]; [done|].
      rewrite bool_decide_eq_false_2 by (intros Hne; congruence).
      apply andb_false_r. }
    unfold need_compile.
    destruct (current_type s) as [items|] eqn:Hcur; [|done].
    destruct (type_changed items (sd_model (world s))); [done|].
    destruct (parse_boolean_from_env _ _ _); simpl; by rewrite Hcur.
Qed.

(** ** More on the lines of the calibration file *)

Lemma rstrip_app_blank (x y : string) :
  rstrip y = EmptyString -> rstrip (x +:+ y) = rstrip x.
Proof.
  intros Hy. induction x as [|c x IH]; [done|].
  rewrite app_cons. simpl. by rewrite IH.
Qed.

Lemma rstrip_row (name scale zero_point values : string) :
  field values = true ->
  rstrip (render_row (name, scale, zero_point, values))
  = render_row (name, scale, zero_point, values).
Proof.
  intros [Hve Hv]%field_inv. unfold render_row.
  rewrite <- !app_assoc_str.
  rewrite rstrip_app; rewrite (rstrip_no_space values Hv); done.
Qed.


End WebuiMore.

Section WebuiMoreExamples.
Import Webui Samples.
#[local] Existing Instance sample_host.

(** X1, at an empty calibration file. *)
Lemma get_calibrate_info_none_iff_witness :
  let s := fresh (sample_world "sd15" unet_a empty_file_dir) in
  get_calibrate_info (H := sample_host) "sd15_sd_calibrate_info.txt" s
  = (Ok (Some ∅), emit (InfoGotCalibrate "/models" "sd15_sd_calibrate_info.txt") s).
Proof.
  intros s.
  apply (get_calibrate_info_none_iff (H := sample_host)
           "sd15_sd_calibrate_info.txt" s).
  reflexivity.
Defined.


(** X5, at two SD1 models with different UNets. *)
Lemma need_compile_signature_only_witness :
  need_compile (H := sample_host) (sd1_model unet_a) first_request
  = need_compile (H := sample_host) (sd1_model unet_b) first_request.
Proof.
  apply (need_compile_signature_only (H := sample_host)). reflexivity.
Defined.

(** X6, at a first request with quantization. *)
Lemma run_compile_records_key_witness :
  let s1 := (run_compile (H := sample_host) true first_request).2 in
  compiled_ckpt_name s1 = Some "a_quantized" /\
  (exists unet, compiled_unet s1 = Bound unet) /\
  CallCompileUnet unet_a true ∈ log s1.
Proof.
  intros s1.
  destruct (run_compile_records_key (H := sample_host) true first_request s1)
    as [Hkey Hcompiled]; [reflexivity|].
  split; [by apply Hkey|]. by apply Hcompiled.
Defined.

(** X7, at the state a failed compilation leaves behind. *)
Lemma run_after_del_raises_witness :
  (run (H := sample_host) true false after_failed_compile).1
    = Raise (NameError "compiled_unet") /\
  compiled_unet (run (H := sample_host) true false after_failed_compile).2 = Unbound.
Proof.
  destruct (run_after_del_raises (H := sample_host) true false after_failed_compile)
    as (Hr & Hu & _); [reflexivity|].
  split; [by rewrite Hr|exact Hu].
Defined.

(** X8, at a request without quantization whose compiler fails, and at a
    quantized request whose calibration file has a short line. *)
Lemma run_failed_compile_witness :
  let s := fresh (sample_world "sd15" unet_a short_line_dir) in
  ((run_with (H := sample_host) compiler_fails true false s).1
     = Raise (HostError "compilation failed") /\
   compiled_unet (run_with (H := sample_host) compiler_fails true false s).2 = Unbound) /\
  ((run (H := sample_host) true true s).1 = Raise IndexError /\
   compiled_unet (run (H := sample_host) true true s).2 = Unbound /\
   (run (H := sample_host) true false
      (set_world (sample_world "sd15" unet_a ∅) (run (H := sample_host) true true s).2)).1
     = Raise (NameError "compiled_unet")).
Proof.
  intros s. split.
  - destruct (run_failed_compile (H := sample_host) compiler_fails true false s
                PyNone (HostError "compilation failed"))
      as (Hr & Hu & _); [done|reflexivity..|].
    split; [exact Hr|exact Hu].
  - destruct (run_failed_compile (H := sample_host) compile_unet true true s
                PyNone IndexError)
      as (Hr & Hu & _ & Hlater);
      [apply compile_unet_keeps_globals|reflexivity..|].
    split; [exact Hr|]. split; [exact Hu|]. apply Hlater.
Defined.

(** X9, at a first request with quantization, and without. *)
Lemma run_signature_bookkeeping_witness :
  current_type (run (H := sample_host) true true first_request).2 = None /\
  current_type (run (H := sample_host) true false first_request).2 <> None.
Proof.
  destruct (run_signature_bookkeeping (H := sample_host) true true first_request)
    as [Hkeep _].
  destruct (run_signature_bookkeeping (H := sample_host) true false first_request)
    as [_ Hset].
  split.
  - rewrite Hkeep; [reflexivity..|discriminate].
  - apply Hset. by left.
Defined.


End WebuiMoreExamples.

(* ===================================================================== *)
(** * Further properties of infer_compiler/__init__.py *)
(* ===================================================================== *)

Section BridgeMore.
Import Bridge.

(** X10. After the conversion of the inputs no host tensor is left at any
    depth, a value without host tensors is not changed by it, and so
    converting twice is converting once. *)
Theorem to_backend_no_host_tensor (x : value) :
  no_torch_tensor (to_backend x) = true /\
  (no_torch_tensor x = true -> to_backend x = x) /\
  to_backend (to_backend x) = to_backend x.
Proof.
  assert (Hclean : forall v, no_torch_tensor (to_backend v) = true).
  { intros v. unfold to_backend.
    induction v as [t|t|z|items IH|items IH|items IH] using value_nested_ind;
      simpl; try done.
    - induction IH as [|v rest Hv _ IHrest]; simpl; [done|]. by rewrite Hv, IHrest.
    - induction IH as [|v rest Hv _ IHrest]; simpl; [done|]. by rewrite Hv, IHrest.
    - induction IH as [|[k v] rest Hv _ IHrest]; simpl; [done|].
      simpl in Hv. by rewrite Hv, IHrest. }
  assert (Hfix : forall v, no_torch_tensor v = true -> to_backend v = v).
  { intros v. unfold to_backend.
    induction v as [t|t|z|items IH|items IH|items IH] using value_nested_ind;
      simpl; try done.
    - intros Hall. f_equal.
      induction IH as [|v rest Hv _ IHrest]; simpl in *; [done|].
      apply andb_prop in Hall as [H1 H2]. by rewrite Hv, IHrest.
    - intros Hall. f_equal.
      induction IH as [|v rest Hv _ IHrest]; simpl in *; [done|].
      apply andb_prop in Hall as [H1 H2]. by rewrite Hv, IHrest.
    - intros Hall. f_equal.
      induction IH as [|[k v] rest Hv _ IHrest]; simpl in *; [done|].
      apply andb_prop in Hall as [H1 H2]. by rewrite Hv, IHrest. }
  split; [apply Hclean|]. split; [apply Hfix|]. apply Hfix, Hclean.
Qed.

Lemma convert_items (items : list value) :
  match comprehension to_torch items with
  | Ok converted =>
      forallb is_flow_tensor items = true /\
      List.map content converted = List.map content items /\
      forallb host_value converted = true /\
      length converted = length items
  | Raise _ => forallb is_flow_tensor items = false
  end.
Proof.
  induction items as [|x rest IH]; simpl; [done|].
  destruct x as [t|t|z|l|l|l]; simpl; try done.
  destruct (comprehension to_torch rest) as [converted|e]; simpl; [|done].
  destruct IH as (-> & -> & -> & ->). done.
Qed.

(** X12. The conversion of the output succeeds exactly on a backend tensor
    and on a tuple of backend tensors; what it returns then holds host
    tensors only, with the content of the output, and a tuple keeps its
    length. *)
Theorem convert_output_defined (output : value) :
  is_ok (convert_output output) = flow_output output /\
  forall converted,
    convert_output output = Ok converted ->
    content converted = content output /\
    host_value converted = true /\
    forall items, output = Tuple items ->
      exists items', converted = Tuple items' /\ length items' = length items.
Proof.
  destruct output as [t|t|z|items|items|items]; simpl; try (split; done).
  - split; [done|]. intros converted [= <-]. repeat split. by intros items.
  - pose proof (convert_items items) as Hitems.
    destruct (comprehension to_torch items) as [converted|e]; simpl.
    + destruct Hitems as (Hflow & Hc & Hh & Hlen). split; [done|].
      intros c [= <-]. simpl. rewrite Hc. repeat split; try done.
      intros items0 [= <-]. by exists converted.
    + split; [done|]. done.
Qed.

(** X25. Through a callee that returns its positional arguments as a
    tuple, [wrapped_forward] on host tensors gives back a tuple of host
    tensors with the contents of the arguments, one for one. *)
Theorem wrapped_forward_echo (args : list value) (kwargs : list (string * value)) :
  forallb is_torch_tensor args = true ->
  exists outputs,
    wrapped_forward (fun a _ => Ok (Tuple a)) args kwargs = Ok (Tuple outputs) /\
    List.map content outputs = List.map content args /\
    forallb host_value outputs = true.
Proof.
  intros Hargs.
  destruct (convert_tensors args Hargs) as (converted & Hconv & Hc & Hh & _).
  exists converted. unfold wrapped_forward. simpl. by rewrite Hconv.
Qed.

End BridgeMore.

Section BridgeMoreExamples.
Import Bridge BridgeSamples.

(** X10, at a dict inside a list: already converted values are fixed. *)
Lemma to_backend_no_host_tensor_witness :
  let x := PyList [Dict [("sample", FlowTensor packed)]; Scalar 3] in
  to_backend x = x.
Proof.
  intros x. destruct (to_backend_no_host_tensor x) as (_ & Hfix & _).
  apply Hfix. reflexivity.
Defined.

(** X12, at a pair of backend tensors. *)
Lemma convert_output_defined_witness :
  let output := Tuple [FlowTensor strided; FlowTensor packed] in
  content (Tuple [TorchTensor strided; TorchTensor packed]) = content output /\
  exists items', Tuple [TorchTensor strided; TorchTensor packed] = Tuple items' /\
                 length items' = 2%nat.
Proof.
  intros output.
  destruct (convert_output_defined output) as [_ Hconv].
  destruct (Hconv (Tuple [TorchTensor strided; TorchTensor packed]) eq_refl)
    as (Hc & _ & Hlen).
  split; [exact Hc|]. by apply (Hlen [FlowTensor strided; FlowTensor packed]).
Defined.

(** X25, at a strided and a packed tensor, with a keyword argument. *)
Lemma wrapped_forward_echo_witness :
  let args := [TorchTensor strided; TorchTensor packed] in
  exists outputs,
    wrapped_forward (fun a _ => Ok (Tuple a)) args [("scale", Scalar 2)]
      = Ok (Tuple outputs) /\
    List.map content outputs = List.map content args /\
    forallb host_value outputs = true.
Proof.
  intros args. apply (wrapped_forward_echo args [("scale", Scalar 2)]).
  reflexivity.
Defined.

End BridgeMoreExamples.

(* ===================================================================== *)
(** * Further properties of infer_compiler/oneflow/deployable_module.py *)
(* ===================================================================== *)

Section DeployableMore.
Import Deployable.
Context `{Backend}.
Variable call_apply_model : OneflowModule -> input -> result output.
Variable graph_load_graph :
  Graph device -> string -> option device -> bool -> result unit * Graph device.
Variable graph_save_graph : Graph device -> string -> result unit * Graph device.

#[local] Abbreviation Wrapper := (Wrapper device to_args).
#[local] Abbreviation Graph := (Graph device).

(** X13. Reading the graph file after [set_graph_file(p)] gives [p], for
    every [p] and every wrapper; setting the same path twice in a row is
    the same as setting it once (also for the empty path, where both calls
    clear); and the call never touches the count of built graphs, the
    quantization configuration, the dynamic flag, the original module, the
    record of moves or the other options. *)
Theorem set_graph_file_then_get (file_path : option string) (w : Wrapper) :
  let w' := set_graph_file file_path w in
  get_graph_file w' = file_path /\
  set_graph_file file_path w' = w' /\
  built w' = built w /\
  _deployable_module_quant_config w' = _deployable_module_quant_config w /\
  _deployable_module_enable_dynamic w' = _deployable_module_enable_dynamic w /\
  _torch_module (_deployable_module_model w') = _torch_module (_deployable_module_model w) /\
  moved (_deployable_module_model w') = moved (_deployable_module_model w) /\
  use_graph (_deployable_module_options w') = use_graph (_deployable_module_options w) /\
  max_cached_graph_size (_deployable_module_options w')
    = max_cached_graph_size (_deployable_module_options w) /\
  debug_level (_deployable_module_options w') = debug_level (_deployable_module_options w).
Proof.
  unfold set_graph_file at 1.
  destruct (truthy file_path && bool_decide (get_graph_file w = file_path)) eqn:Hsame.
  - apply andb_prop in Hsame as [Ht Heq%bool_decide_eq_true].
    simpl. repeat split; try done. unfold set_graph_file.
    by rewrite Ht, (bool_decide_eq_true_2 _ Heq).
  - simpl. repeat split; try done. unfold set_graph_file, get_graph_file. simpl.
    rewrite bool_decide_eq_true_2 by done. rewrite andb_true_r.
    by destruct (truthy file_path).
Qed.

(** X14. [to] never replaces or drops the graph handle. With a handle it
    still passes the move on when the arguments name no device, when the
    graph has no block, or when [check_device] accepts the target for the
    device of the first state tensor. With a device, a block and no state
    tensor at all, it raises [StopIteration] and moves nothing. *)
Theorem to_with_graph (args : to_args) (w : Wrapper) (g : Graph) :
  _deployable_module_dpl_graph w = Some g ->
  _deployable_module_dpl_graph (to args w).2 = Some g /\
  (parse_device args = None \/ _blocks g = [] ->
   to args w = (Ok tt, model_to args w)) /\
  (forall target current rest,
      parse_device args = Some target ->
      _state g = current :: rest ->
      check_device current target = true ->
      to args w = (Ok tt, model_to args w)) /\
  (forall target,
      parse_device args = Some target ->
      _blocks g <> [] -> _state g = [] ->
      to args w = (Raise StopIteration, w)).
Proof.
  intros Hg. unfold to. rewrite Hg. split; [|split; [|split]].
  - destruct (parse_device args) as [target|]; [|by simpl].
    destruct (0 <? length (_blocks g))%nat; [|by simpl].
    destruct (_state g) as [|d rest]; [by simpl|].
    destruct (check_device d target); by simpl.
  - intros [-> | Hb]; [done|]. rewrite Hb. simpl.
    by destruct (parse_device args).
  - intros target current rest -> -> Hok. rewrite Hok. simpl.
    by destruct (0 <? length (_blocks g))%nat.
  - intros target -> Hb ->.
    destruct (_blocks g); [done|]. done.
Qed.

(** X15. What [get_graph] returns is what the wrapper holds afterwards, and
    a second call returns it again without any change. When the wrapper has
    no handle and the conversion of the original module raises, or the
    construction of the graph by [get_oneflow_graph] raises, [get_graph]
    raises the same exception, no handle is stored and no graph is
    counted. *)
Theorem get_graph_stores (w : Wrapper) :
  (forall g w1,
      get_graph w = (Ok g, w1) ->
      _deployable_module_dpl_graph w1 = Some g /\ get_graph w1 = (Ok g, w1)) /\
  (forall e,
      _deployable_module_dpl_graph w = None ->
      _oneflow_module (_deployable_module_model w) = None ->
      torch2oflow (_torch_module (_deployable_module_model w)) = Raise e ->
      get_graph w = (Raise e, w)) /\
  (forall om w1 e,
      _deployable_module_dpl_graph w = None ->
      oneflow_module w = (Ok om, w1) ->
      get_oneflow_graph om
        (max_cached_graph_size (_deployable_module_options w))
        (_deployable_module_enable_dynamic w) = Raise e ->
      get_graph w = (Raise e, w1) /\
      _deployable_module_dpl_graph w1 = None /\
      built w1 = built w).
Proof.
  split; [|split].
  - intros g w1 Hget.
    assert (_deployable_module_dpl_graph w1 = Some g) as Hstored.
    { revert Hget. unfold get_graph, oneflow_module.
      destruct (_deployable_module_dpl_graph w) as [g0|] eqn:Hg;
        [by intros [= <- <-]|].
      destruct (_oneflow_module (_deployable_module_model w)) as [om|].
      - destruct (get_oneflow_graph om _ _); [|done]. by intros [= <- <-].
      - destruct (torch2oflow _) as [om|]; [|done]. simpl.
        destruct (get_oneflow_graph om _ _); [|done]. by intros [= <- <-]. }
    split; [done|]. by apply get_graph_built.
  - intros e Hg Hom Hconv. unfold get_graph, oneflow_module.
    by rewrite Hg, Hom, Hconv.
  - intros om w1 e Hg Hom Hbuild. unfold get_graph. rewrite Hg, Hom.
    assert (_deployable_module_options w1 = _deployable_module_options w /\
            _deployable_module_enable_dynamic w1 = _deployable_module_enable_dynamic w /\
            _deployable_module_dpl_graph w1 = _deployable_module_dpl_graph w /\
            built w1 = built w) as (Ho & Hd & Hg1 & Hb).
    { revert Hom. unfold oneflow_module.
      destruct (_oneflow_module (_deployable_module_model w)); [by intros [= _ <-]|].
      destruct (torch2oflow _); [|done]. by intros [= _ <-]. }
    rewrite Ho, Hd, Hbuild, Hg1, Hb. done.
Qed.

(** X16. Without [use_graph], [forward] builds no graph and leaves the
    handle alone; it converts the original module at most once: a second
    [forward] finds the state the first one left. *)
Theorem forward_eager (args : input) (w : Wrapper) :
  use_graph (_deployable_module_options w) = false ->
  _deployable_module_dpl_graph (forward args w).2 = _deployable_module_dpl_graph w /\
  built (forward args w).2 = built w /\
  forward args (forward args w).2 = forward args w.
Proof.
  intros Huse. unfold forward at 1 2 4 5. rewrite Huse. unfold oneflow_module.
  destruct (_oneflow_module (_deployable_module_model w)) as [om|] eqn:Hom; simpl.
  - repeat split. unfold forward, oneflow_module. by rewrite Huse, Hom.
  - destruct (torch2oflow _) as [om|e] eqn:Hconv; simpl.
    + repeat split. unfold forward, oneflow_module. simpl. by rewrite Huse.
    + repeat split. unfold forward, oneflow_module. by rewrite Huse, Hom, Hconv.
Qed.

(** X17. With [use_graph], [apply_model] is [forward]: both run the one
    graph handle of the wrapper, and the [apply_model] method of the
    backend module is never called. So the graph a [forward] has built is
    the graph a later [apply_model] runs, without building another. *)
Theorem apply_model_with_graph (args : input) (w : Wrapper) :
  use_graph (_deployable_module_options w) = true ->
  apply_model call_apply_model args w = forward args w /\
  forall g w1 args',
    get_graph w = (Ok g, w1) ->
    (forward args w).2 = w1 /\
    apply_model call_apply_model args' w1 = (call_graph g args', w1).
Proof.
  intros Huse. split; [unfold apply_model, forward; by rewrite Huse|].
  intros g w1 args' Hget.
  assert (_deployable_module_dpl_graph w1 = Some g /\
          _deployable_module_options w1 = _deployable_module_options w)
    as [Hstored Hopt].
  { destruct (get_graph_cases w)
      as [(g0 & w0 & Hget0 & Hg0 & _ & Ho)|(e & w0 & Hget0 & _)];
      rewrite Hget0 in Hget; [|done].
    by injection Hget as <- <-. }
  split.
  - unfold forward. by rewrite Huse, Hget.
  - unfold apply_model. by rewrite Hopt, Huse, (get_graph_built w1 g Hstored).
Qed.

(** X18. [load_graph] and [save_graph] go through [get_graph]: when that
    raises, the graph's method is not called and the exception is theirs;
    when it returns, the wrapper holds a handle afterwards, also when the
    graph's method raised, and the first-run flag and the count of built
    graphs are those [get_graph] left. *)
Theorem load_save_keep_handle (file_path : string) (device_ : option device)
    (run_warmup : bool) (w : Wrapper) :
  let loaded := load_graph graph_load_graph file_path device_ run_warmup w in
  let saved := save_graph graph_save_graph file_path w in
  (forall e w1, get_graph w = (Raise e, w1) ->
                loaded = (Raise e, w1) /\ saved = (Raise e, w1)) /\
  (forall g w1, get_graph w = (Ok g, w1) ->
                is_Some (_deployable_module_dpl_graph loaded.2) /\
                is_Some (_deployable_module_dpl_graph saved.2) /\
                built loaded.2 = built w1 /\ built saved.2 = built w1 /\
                _load_graph_first_run loaded.2 = _load_graph_first_run w /\
                _load_graph_first_run saved.2 = _load_graph_first_run w).
Proof.
  simpl. unfold load_graph, save_graph. split.
  - intros e w1 ->. done.
  - intros g w1 Hget. rewrite Hget.
    assert (_load_graph_first_run w1 = _load_graph_first_run w) as Hflag.
    { revert Hget. unfold get_graph, oneflow_module.
      destruct (_deployable_module_dpl_graph w); [by intros [= <- <-]|].
      destruct (_oneflow_module (_deployable_module_model w)) as [om|].
      - destruct (get_oneflow_graph om _ _); [|done]. by intros [= <- <-].
      - destruct (torch2oflow _) as [om|]; [|done]. simpl.
        destruct (get_oneflow_graph om _ _); [|done]. by intros [= <- <-]. }
    destruct (graph_load_graph g file_path device_ run_warmup) as [r1 g1].
    destruct (graph_save_graph g file_path) as [r2 g2]. simpl.
    repeat split; try done; by eexists.
Qed.

(** X19. [apply_online_quant] only stores the configuration: a built graph
    stays, and a [forward] after it runs that graph and builds nothing. *)
Theorem apply_online_quant_keeps_graph (quant_config : string) (args : input)
    (w : Wrapper) (g : Graph) :
  _deployable_module_dpl_graph w = Some g ->
  use_graph (_deployable_module_options w) = true ->
  forward args (apply_online_quant quant_config w)
  = (call_graph g args, apply_online_quant quant_config w) /\
  _deployable_module_quant_config (apply_online_quant quant_config w)
  = Some quant_config.
Proof.
  intros Hg Huse. split; [|done].
  unfold forward, get_graph. simpl. by rewrite Huse, Hg.
Qed.

(** X20. Invalidation discards the converted module with the graph: after
    [set_graph_file] with another path, [get_graph] converts the original
    module again, so that it raises when this conversion raises, although
    the wrapper had a converted module and a graph before. *)
Theorem rebuild_converts_again (file_path : option string) (w : Wrapper) (e : exn) :
  get_graph_file w <> file_path ->
  torch2oflow (_torch_module (_deployable_module_model w)) = Raise e ->
  get_graph (set_graph_file file_path w) = (Raise e, set_graph_file file_path w).
Proof.
  intros Hne Hconv. unfold set_graph_file.
  rewrite (bool_decide_eq_false_2 _ Hne), andb_false_r.
  unfold get_graph, oneflow_module. simpl. by rewrite Hconv.
Qed.

End DeployableMore.

Section DeployableMoreExamples.
Import Deployable BackendSamples.

(** X14, at a built graph on ["cuda:0"]: a move that names no device, and
    a move to ["cuda:0"], are passed on. *)
Lemma to_with_graph_witness :
  to (H := sample_backend) None built_wrapper
  = (Ok tt, model_to (H := sample_backend) None built_wrapper) /\
  to (H := sample_backend) (Some "cuda:0") built_wrapper
  = (Ok tt, model_to (H := sample_backend) (Some "cuda:0") built_wrapper).
Proof.
  destruct (_deployable_module_dpl_graph built_wrapper) as [g|] eqn:Hg;
    [|discriminate].
  destruct (to_with_graph (H := sample_backend) None built_wrapper g Hg)
    as (_ & Hnone & _).
  destruct (to_with_graph (H := sample_backend) (Some "cuda:0") built_wrapper g Hg)
    as (_ & _ & Hsame & _).
  injection Hg as <-. split.
  - apply Hnone. by left.
  - eapply Hsame; reflexivity.
Defined.

(** X15, at a new wrapper, at a new wrapper of a backend that cannot
    convert, and at one of a backend that cannot build a graph. *)
Lemma get_graph_stores_witness :
  (let r := get_graph (H := sample_backend) new_wrapper in
   exists g, r.1 = Ok g /\
             _deployable_module_dpl_graph r.2 = Some g /\
             get_graph (H := sample_backend) r.2 = (Ok g, r.2)) /\
  (let w := init (H := no_conversion_backend) "unet" None true None in
   get_graph (H := no_conversion_backend) w
   = (Raise (RuntimeError "no converter registered"), w)) /\
  (let r := get_graph (H := no_graph_backend)
              (init (H := no_graph_backend) "unet" None true None) in
   r.1 = Raise (RuntimeError "graph construction failed") /\
   _deployable_module_dpl_graph r.2 = None /\
   built r.2 = 0%nat).
Proof.
  split; [|split].
  - intros r.
    destruct (get_graph_stores (H := sample_backend) new_wrapper) as [Hok _].
    destruct r as [[g|e] w1] eqn:Hr; [|discriminate].
    exists g. split; [done|]. by apply Hok.
  - intros w.
    destruct (get_graph_stores (H := no_conversion_backend) w) as (_ & Hconv & _).
    apply Hconv; reflexivity.
  - intros r.
    destruct (get_graph_stores (H := no_graph_backend)
                (init (H := no_graph_backend) "unet" None true None))
      as (_ & _ & Hbuild).
    destruct (Hbuild {| converted_from := "unet" |}
                (oneflow_module (H := no_graph_backend)
                   (init (H := no_graph_backend) "unet" None true None)).2
                (RuntimeError "graph construction failed"))
      as (Hget & Hg & Hb); [reflexivity..|].
    subst r. rewrite Hget. simpl. split; [done|]. split; [exact Hg|exact Hb].
Defined.

(** X16, at a wrapper whose options turn the graph off. *)
Lemma forward_eager_witness :
  _deployable_module_dpl_graph (forward (H := sample_backend) 5%Z eager_wrapper).2 = None /\
  built (forward (H := sample_backend) 5%Z eager_wrapper).2 = 0%nat.
Proof.
  destruct (forward_eager (H := sample_backend) 5%Z eager_wrapper) as (Hg & Hb & _);
    [reflexivity|].
  split; [exact Hg|exact Hb].
Defined.

(** X17, at a new wrapper. *)
Lemma apply_model_with_graph_witness :
  apply_model (H := sample_backend) apply_model_of 5%Z new_wrapper
  = forward (H := sample_backend) 5%Z new_wrapper.
Proof.
  apply (apply_model_with_graph (H := sample_backend)). reflexivity.
Defined.

(** X18, at a new wrapper and a load that finds no file: the load fails
    and the wrapper is left with the graph built for it. *)
Lemma load_save_keep_handle_witness :
  let loaded := load_graph (H := sample_backend) load_fails "/tmp/g1" None true
                  new_wrapper in
  loaded.1 = Raise (HostError "graph file not found") /\
  is_Some (_deployable_module_dpl_graph loaded.2) /\
  built loaded.2 = 1%nat.
Proof.
  intros loaded.
  destruct (load_save_keep_handle (H := sample_backend) load_fails save_works
              "/tmp/g1" None true new_wrapper) as [_ Hok].
  destruct (get_graph (H := sample_backend) new_wrapper) as [[g|e] w1] eqn:Hget;
    [|discriminate].
  destruct (Hok g w1 eq_refl) as (Hl & _ & Hb & _).
  split; [reflexivity|]. split; [exact Hl|].
  fold loaded in Hb. rewrite Hb. injection Hget as _ <-. reflexivity.
Defined.

(** X19, at a wrapper that has run once. *)
Lemma apply_online_quant_keeps_graph_witness :
  (forward (H := sample_backend) 5%Z
     (apply_online_quant (H := sample_backend) "int8" built_wrapper)).1 = Ok 6%Z /\
  built (forward (H := sample_backend) 5%Z
           (apply_online_quant (H := sample_backend) "int8" built_wrapper)).2 = 1%nat.
Proof.
  destruct (_deployable_module_dpl_graph built_wrapper) as [g|] eqn:Hg;
    [|discriminate].
  destruct (apply_online_quant_keeps_graph (H := sample_backend) "int8" 5%Z
              built_wrapper g Hg eq_refl) as [-> _].
  injection Hg as <-. split; reflexivity.
Defined.

(** X20, at a backend that cannot convert: the wrapper ran on the module
    it was given, and cannot rebuild once its graph file has changed. *)
Lemma rebuild_converts_again_witness :
  is_Some (_deployable_module_dpl_graph given_wrapper) /\
  (get_graph (H := no_conversion_backend)
     (set_graph_file (H := no_conversion_backend) (Some "/tmp/g1") given_wrapper)).1
  = Raise (RuntimeError "no converter registered").
Proof.
  split; [by eexists|].
  rewrite (rebuild_converts_again (H := no_conversion_backend) (Some "/tmp/g1")
             given_wrapper (RuntimeError "no converter registered"));
    [reflexivity|discriminate|reflexivity].
Defined.

End DeployableMoreExamples.

(* ===================================================================== *)
(** * Properties of [generate_graph_path] *)
(* ===================================================================== *)

Section GraphPathProps.
Import GraphPath.
Context {FS : Type}.
Variable makedirs : string -> eff FS unit.
Variable onediff_version oneflow_version : string.

Lemma app_not_empty (x y : string) : x <> EmptyString -> x +:+ y <> EmptyString.
Proof. by destruct x. Qed.

Lemma join2_not_empty (path b : string) :
  path <> EmptyString -> join2 path b <> EmptyString.
Proof.
  intros Hp. unfold join2.
  destruct (starts_with_sep b) eqn:Hb; [by destruct b|].
  destruct (bool_decide (path = EmptyString) || ends_with_sep path);
    by apply app_not_empty.
Qed.

Lemma join2_graphs_not_empty (base : string) : join2 base "graphs" <> EmptyString.
Proof.
  unfold join2. simpl.
  destruct (bool_decide (base = EmptyString) || ends_with_sep base);
    by destruct base.
Qed.

Lemma ends_with_sep_app (x y : string) :
  y <> EmptyString -> ends_with_sep (x +:+ y) = ends_with_sep y.
Proof.
  intros Hy. induction x as [|c x IH]; [done|].
  rewrite app_cons. simpl. rewrite IH.
  destruct (x +:+ y) eqn:E; [|done].
  destruct x; [by rewrite app_empty in E|done].
Qed.

Lemma starts_with_sep_file_name (model_name : string) :
  starts_with_sep model_name = false ->
  starts_with_sep (graph_file_name onediff_version oneflow_version model_name) = false.
Proof. unfold graph_file_name. by destruct model_name. Qed.

(** X21. [generate_graph_path] creates one directory and returns a path
    directly inside it, provided the model name does not start with [/];
    when [makedirs] raises, so does the function. The directory is
    [<base>/graphs/<ckpt_name>] under the first non-empty output directory,
    unless the checkpoint name starts with [/]: then it is the checkpoint
    name itself, outside the output directory. *)
Theorem generate_graph_path_layout (opts : Opts) (ckpt_name model_name : string)
    (s : FS) :
  let base := or_else (outdir_samples opts) (outdir_txt2img_samples opts) in
  let dir := graphs_dir opts ckpt_name in
  let file := graph_file_name onediff_version oneflow_version model_name in
  let result := generate_graph_path makedirs onediff_version oneflow_version
                  opts ckpt_name model_name s in
  (forall e s', makedirs dir s = (Raise e, s') -> result = (Raise e, s')) /\
  (starts_with_sep model_name = false ->
   forall s', makedirs dir s = (Ok tt, s') ->
     result = (Ok (dir +:+ (if ends_with_sep dir then EmptyString else "/") +:+ file), s')) /\
  (starts_with_sep ckpt_name = true -> dir = ckpt_name) /\
  (starts_with_sep ckpt_name = false ->
   base <> EmptyString -> ends_with_sep base = false ->
   dir = base +:+ "/graphs/" +:+ ckpt_name).
Proof.
  intros base dir file result.
  unfold result, generate_graph_path, bind, ret.
  change (join (or_else (outdir_samples opts) (outdir_txt2img_samples opts))
            ["graphs"; ckpt_name]) with dir.
  change (model_name +:+ "_graph_" +:+ onediff_version +:+ "_oneflow_"
            +:+ oneflow_version) with file.
  split; [|split; [|split]].
  - intros e s' ->. done.
  - intros Hmodel s' ->. simpl. unfold join2.
    unfold file. rewrite starts_with_sep_file_name by done. fold file.
    assert (dir <> EmptyString) as Hdir.
    { unfold dir, graphs_dir, join. simpl.
      apply join2_not_empty, join2_graphs_not_empty. }
    rewrite (bool_decide_eq_false_2 _ Hdir). simpl.
    destruct (ends_with_sep dir); done.
  - intros Habs. unfold dir, graphs_dir, join. simpl. unfold join2 at 1.
    by rewrite Habs.
  - intros Hrel Hbase Hend. unfold dir, graphs_dir, join. simpl. fold base.
    unfold join2 at 1. rewrite Hrel.
    assert (join2 base "graphs" = base +:+ "/graphs") as ->.
    { unfold join2. simpl. by rewrite (bool_decide_eq_false_2 _ Hbase), Hend. }
    rewrite (bool_decide_eq_false_2 _ (app_not_empty _ _ Hbase)).
    rewrite ends_with_sep_app by done. simpl.
    by rewrite !app_assoc_str.
Qed.

End GraphPathProps.

Section GraphPathExamples.
Import GraphPath PathSamples.

(** X21, with only the txt2img directory configured. *)
Lemma generate_graph_path_layout_witness :
  generate_graph_path record_makedirs "1.0" "0.9" only_txt2img "sd15" "unet" []
  = (Ok "outputs/txt2img-images/graphs/sd15/unet_graph_1.0_oneflow_0.9",
     ["outputs/txt2img-images/graphs/sd15"]).
Proof.
  destruct (generate_graph_path_layout record_makedirs "1.0" "0.9" only_txt2img
              "sd15" "unet" []) as (_ & Hpath & _).
  rewrite (Hpath eq_refl ["outputs/txt2img-images/graphs/sd15"]); reflexivity.
Defined.

End GraphPathExamples.

(* ===================================================================== *)
(** * Properties of install.py *)
(* ===================================================================== *)

Section InstallProps.
Import Install.
Context {Env : Type}.
Variable is_installed : Env -> string -> bool.
Variable run_pip : string -> eff Env unit.

#[local] Abbreviation State := (State (Env := Env)).

(** X22. [install] stops at the first pip failure: when oneflow is
    missing and its installation raises, [install] raises the same
    exception, having issued that one command only, and onediff is not
    looked at. *)
Theorem install_stops_at_failure (s : State) (e : exn) (env' : Env) :
  is_installed (env s) "oneflow" = false ->
  run_pip oneflow_command (env s) = (Raise e, env') ->
  (install is_installed run_pip s).1 = Raise e /\
  pip_commands (install is_installed run_pip s).2
  = (pip_commands s ++ [oneflow_command])%list /\
  env (install is_installed run_pip s).2 = env'.
Proof.
  intros Hmissing Hpip.
  unfold install, bind, print, launch_run_pip. simpl.
  rewrite Hmissing. simpl. rewrite Hpip. done.
Qed.

(** X23. With both packages installed [install] does nothing. With a pip
    that installs what it is asked to and removes nothing, an [install]
    that returns leaves both packages installed, so that a second
    [install] does nothing. *)
Theorem install_idempotent (s s1 : State) :
  (is_installed (env s) "oneflow" = true ->
   is_installed (env s) "onediff" = true ->
   install is_installed run_pip s = (Ok tt, s)) /\
  ((forall e0 e1, run_pip oneflow_command e0 = (Ok tt, e1) ->
                  is_installed e1 "oneflow" = true) ->
   (forall e0 e1, run_pip onediff_command e0 = (Ok tt, e1) ->
                  is_installed e1 "onediff" = true) ->
   (forall command e0 r e1 package,
       run_pip command e0 = (r, e1) ->
       is_installed e0 package = true -> is_installed e1 package = true) ->
   install is_installed run_pip s = (Ok tt, s1) ->
   is_installed (env s1) "oneflow" = true /\
   is_installed (env s1) "onediff" = true /\
   install is_installed run_pip s1 = (Ok tt, s1)).
Proof.
  assert (Hnothing : forall s0 : State,
             is_installed (env s0) "oneflow" = true ->
             is_installed (env s0) "onediff" = true ->
             install is_installed run_pip s0 = (Ok tt, s0)).
  { intros s0 H1 H2. unfold install, bind. rewrite H1. simpl. by rewrite H2. }
  split; [apply Hnothing|].
  intros Hflow Hdiff Hkeep Hrun.
  assert (is_installed (env s1) "oneflow" = true /\
          is_installed (env s1) "onediff" = true) as [H1 H2].
  { revert Hrun. unfold install, bind, print, launch_run_pip. simpl.
    destruct (is_installed (env s) "oneflow") eqn:Hof; simpl.
    - destruct (is_installed (env s) "onediff") eqn:Hod; simpl.
      + by intros [= <-].
      + destruct (run_pip onediff_command (env s)) as [[[]|e] e1] eqn:Hp; [|done].
        intros [= <-]. simpl. split; [by eapply Hkeep|by eapply Hdiff].
    - destruct (run_pip oneflow_command (env s)) as [[[]|e] e1] eqn:Hp; [|done].
      simpl. destruct (is_installed e1 "onediff") eqn:Hod; simpl.
      + intros [= <-]. simpl. split; [by eapply Hflow|done].
      + destruct (run_pip onediff_command e1) as [[[]|e] e2] eqn:Hp2; [|done].
        intros [= <-]. simpl. split; [|by eapply Hdiff].
        eapply Hkeep; [exact Hp2|]. by eapply Hflow. }
  repeat split; try done. by apply Hnothing.
Qed.

End InstallProps.

Section InstallExamples.
Import Install InstallSamples.

(** X22, without network. *)
Lemma install_stops_at_failure_witness :
  (install has pip_offline nothing_installed).1 = Raise (HostError "no network") /\
  pip_commands (install has pip_offline nothing_installed).2 = [oneflow_command].
Proof.
  destruct (install_stops_at_failure has pip_offline nothing_installed
              (HostError "no network") ∅) as (Hr & Hc & _); [reflexivity..|].
  split; [exact Hr|exact Hc].
Defined.

(** X23, from an environment with neither package. *)
Lemma install_idempotent_witness :
  let s1 := (install has pip nothing_installed).2 in
  pip_commands s1 = [oneflow_command; onediff_command] /\
  install has pip s1 = (Ok tt, s1).
Proof.
  intros s1. split; [reflexivity|].
  destruct (install_idempotent has pip nothing_installed s1) as [_ Hagain].
  apply Hagain; clear Hagain; try clear s1.
  - intros e0 e1 [= <-]. apply bool_decide_eq_true.
    repeat case_bool_decide; try done; set_solver.
  - intros e0 e1 [= <-]. apply bool_decide_eq_true.
    repeat case_bool_decide; try done; set_solver.
  - intros command e0 r e1 package [= _ <-].
    intros Hin%bool_decide_eq_true. apply bool_decide_eq_true.
    repeat case_bool_decide; set_solver.
  - reflexivity.
Defined.

End InstallExamples.
